(** * oxasl_multite: the multi-TE fit orchestrator of [oxasl_multite/api.py]

    A shallow embedding of [_run_fabber], [_fabber_options], [fit_multite]
    and [model_multite].  The Python code mutates a tree of workspace
    objects, may raise, and calls out to collaborators.  We model

    - Python values as the inductive type [value];
    - workspace objects as records in a heap addressed by location, so that
      two names for one workspace alias the same record;
    - statements as functions [world -> world * outcome A]: the world is
      kept when an exception is raised, since Python does not roll back;
    - the calls that leave the module as events appended to a trace.

    The workspace and dataset classes belong to the host pipeline (oxasl),
    not to this module.  They are modelled by the interface the module
    uses: attribute reads that fall back to the enclosing workspace and
    yield [None] for a missing name, attribute writes on the object itself,
    [sub], [ifnone], [set_item], [savedir], and the dataset's timing
    attributes.  What the module calls without defining it (the dataset's
    methods, the Fabber wrapper, the pipeline's output routines) is a field
    of the class [Collaborators]; every theorem holds for any
    implementation of them. *)

From Stdlib Require Import QArith.
From stdpp Require Import gmap strings list fin_maps.

Set Warnings "-register-all".
Set Default Proof Using "Type".

(** ** Python values *)

(** The ASL dataset ([oxasl.AslImage]): per-volume timing metadata and the
    bookkeeping that [diff] and [reorder] change.  The voxel data is
    represented by a name, it is never inspected here. *)
Record AslImage : Type := mkAslImage {
  voxels : string;
  iaf : string;
  order : string;
  tis : list Q;
  tes : list Q;
  taus : list Q;
  rpts : list Z }.

(** A workspace object is identified by its location in the heap. *)
Abbreviation loc := nat (only parsing).

Inductive value : Type :=
| VNone
| VBool (b : bool)
| VInt (z : Z)
| VFloat (q : Q)
| VStr (s : string)
| VList (l : list value)
| VDict (d : gmap string value)
| VAslImage (d : AslImage)
| VImage (name : string)
| VWsp (l : loc).

(** [x is None] *)
Definition is_none (v : value) : bool :=
  match v with VNone => true | _ => false end.

(** Truth value of an object, as tested by [if x:]. *)
Definition py_truthy (v : value) : bool :=
  match v with
  | VNone => false
  | VBool b => b
  | VInt z => negb (z =? 0)%Z
  | VFloat q => negb (Qeq_bool q 0)
  | VStr s => negb (String.eqb s "")
  | VList l => negb (bool_decide (l = []))
  | VDict d => negb (bool_decide (d = ∅))
  | VAslImage _ | VImage _ | VWsp _ => true
  end.

(** ** Exceptions and outcomes *)

Inductive exn : Type :=
| ValueError (msg : string)
| NameError (name : string)
| KeyError (key : string)
| AttributeError (attr : string)
| TypeError (what : string)
| IndexError (what : string)
| CollaboratorError (msg : string).

Inductive outcome (A : Type) : Type :=
| Returns (a : A)
| Raises (e : exn).
Arguments Returns {A} a.
Arguments Raises {A} e.

#[export] Instance outcome_fmap : FMap outcome := λ A B f o,
  match o with
  | Returns a => Returns (f a)
  | Raises e => Raises e
  end.

(** ** Workspaces *)

(** How [set_item] turns a value into file content ([save_fn]). *)
Inductive save_fn : Type :=
| SaveStr.

(** One workspace object ([oxasl.Workspace]): its own attributes, the chain
    of enclosing workspaces searched for attributes it does not have
    (nearest first, fixed when [sub] creates it), its persistence directory
    and the items registered for persistence by [set_item]. *)
Record Workspace : Type := mkWorkspace {
  attrs : gmap string value;
  parents : list loc;
  savedir : option string;
  saved : list (string * value * save_fn) }.

(** The mutable state the code and the pipeline routines share: the
    workspace objects and the logging sink, which every sub-workspace
    inherits from its parent. *)
Record store : Type := mkStore {
  heap : list Workspace;
  log : list string }.

(** Calls that leave this module, recorded in order. *)
Inductive event : Type :=
| EvDiff (d : AslImage)
| EvReorder (out_order : string) (d : AslImage)
| EvPrint (options : gmap string value)
| EvFabber (options : gmap string value)
| EvOutputNative (out mt : value)
| EvRedoReg (wsp ref : value)
| EvOutputTrans (out : value).

Record world : Type := mkWorld {
  wstore : store;
  trace : list event }.

(** ** The monad of statements *)

Definition M (A : Type) : Type := world → world * outcome A.

#[export] Instance M_ret : MRet M := λ A a w, (w, Returns a).
#[export] Instance M_bind : MBind M := λ A B f m w,
  match m w with
  | (w', Returns a) => f a w'
  | (w', Raises e) => (w', Raises e)
  end.

Definition raise {A : Type} (e : exn) : M A := λ w, (w, Raises e).

Definition on_heap (f : list Workspace → list Workspace) (w : world) : world :=
  mkWorld (mkStore (f (heap (wstore w))) (log (wstore w))) (trace w).

Definition emit (ev : event) (w : world) : world :=
  mkWorld (wstore w) (trace w ++ [ev]).

Definition NL : string := String (Ascii.ascii_of_nat 10) "".

(** [wsp.log.write(s)] *)
Definition log_write (s : string) : M unit := λ w,
  (mkWorld (mkStore (heap (wstore w)) (log (wstore w) ++ [s])) (trace w), Returns tt).

(** The attribute [name] in the workspace's own dictionary. *)
Definition own_attr (h : list Workspace) (l : loc) (name : string) : option value :=
  h !! l ≫= λ n, attrs n !! name.

Fixpoint lookup_chain (h : list Workspace) (chain : list loc) (name : string) : value :=
  match chain with
  | [] => VNone
  | l :: rest =>
      match own_attr h l name with
      | Some v => v
      | None => lookup_chain h rest name
      end
  end.

Definition parents_of (h : list Workspace) (l : loc) : list loc :=
  match h !! l with Some n => parents n | None => [] end.

(** [wsp.name]: the workspace's own attribute, else the nearest enclosing
    workspace's, else [None]. *)
Definition wsp_lookup (h : list Workspace) (l : loc) (name : string) : value :=
  lookup_chain h (l :: parents_of h l) name.

Definition wsp_getattr (l : loc) (name : string) : M value := λ w,
  (w, Returns (wsp_lookup (heap (wstore w)) l name)).

(** [wsp.ifnone(name, alternative)] *)
Definition wsp_ifnone (l : loc) (name : string) (alternative : value) : M value :=
  v ← wsp_getattr l name;
  mret (if is_none v then alternative else v).

Definition set_attr (name : string) (v : value) (n : Workspace) : Workspace :=
  mkWorkspace (<[name := v]> (attrs n)) (parents n) (savedir n) (saved n).

(** [setattr(wsp, name, v)] *)
Definition wsp_setattr (l : loc) (name : string) (v : value) : M unit := λ w,
  (on_heap (alter (set_attr name v) l) w, Returns tt).

Definition register_item (name : string) (v : value) (f : save_fn) (n : Workspace) : Workspace :=
  mkWorkspace (attrs n) (parents n) (savedir n) (saved n ++ [(name, v, f)]).

(** [wsp.set_item(name, v, save_fn=f)]: sets the attribute and registers
    the item for persistence. *)
Definition wsp_set_item (l : loc) (name : string) (v : value) (f : save_fn) : M unit := λ w,
  (on_heap (alter (λ n, register_item name v f (set_attr name v n)) l) w, Returns tt).

(** [wsp.savedir] *)
Definition wsp_savedir (l : loc) : M (option string) := λ w,
  (w, Returns (heap (wstore w) !! l ≫= savedir)).

(** [wsp.sub(name)]: a new, empty workspace whose parent is [wsp], saved
    below the parent's directory when there is one, and stored in the
    parent as attribute [name]. *)
Definition new_child (h : list Workspace) (l : loc) (name : string) : Workspace :=
  mkWorkspace ∅ (l :: parents_of h l)
    ((λ d, d +:+ "/" +:+ name) <$> (h !! l ≫= savedir)) [].

Definition wsp_sub (l : loc) (name : string) : M loc := λ w,
  let h := heap (wstore w) in
  (on_heap (λ h, alter (set_attr name (VWsp (length h))) l (h ++ [new_child h l name])) w,
   Returns (length h)).

(** ** Attribute access and calls on arbitrary objects *)

(** [v.name] *)
Definition py_getattr (v : value) (name : string) : M value :=
  match v with
  | VWsp l => wsp_getattr l name
  | VAslImage d =>
      if String.eqb name "tis" then mret (VList (VFloat <$> tis d))
      else if String.eqb name "tes" then mret (VList (VFloat <$> tes d))
      else if String.eqb name "taus" then mret (VList (VFloat <$> taus d))
      else if String.eqb name "rpts" then mret (VList (VInt <$> rpts d))
      else raise (AttributeError name)
  | _ => raise (AttributeError name)
  end.

(** The object must be a workspace for its attribute [attr] to be used. *)
Definition as_wsp (attr : string) (v : value) : M loc :=
  match v with
  | VWsp l => mret l
  | _ => raise (AttributeError attr)
  end.

(** [v.sub(name)] *)
Definition py_sub (v : value) (name : string) : M loc :=
  l ← as_wsp "sub" v; wsp_sub l name.

(** [list(v)] *)
Definition py_list (v : value) : M value :=
  match v with
  | VList l => mret (VList l)
  | _ => raise (TypeError "list")
  end.

(** [v[0]] *)
Definition py_first (v : value) : M value :=
  match v with
  | VList (x :: _) => mret x
  | VList [] => raise (IndexError "list index out of range")
  | _ => raise (TypeError "subscript")
  end.

(** [d[key]] on a dictionary *)
Definition dict_getitem (d : gmap string value) (key : string) : M value :=
  match d !! key with
  | Some v => mret v
  | None => raise (KeyError key)
  end.

(** [options.update(other)] for a dictionary [other]: every key of [other]
    overwrites.  Python also merges other iterables of key/value pairs;
    these are not modelled, and the theorems that depend on the merge
    assume that [multite_options] is unset or a dictionary. *)
Definition dict_update (options : gmap string value) (other : value) : M (gmap string value) :=
  match other with
  | VDict d => mret (d ∪ options)
  | _ => raise (TypeError "update")
  end.

(** [for x in xs: body(x)] *)
Fixpoint for_each {A : Type} (xs : list A) (body : A → M unit) : M unit :=
  match xs with
  | [] => mret tt
  | x :: rest => body x;; for_each rest body
  end.

(** A call of a name that is not bound when the call is evaluated.  The
    module binds [np], [LOAD], [Image], [basil], [OptionCategory],
    [IgnorableOptionGroup], [Report], [fabber], [__version__] and its own
    four functions and class; [fit_init] is none of them, nor a builtin, so
    evaluating the callee of [fit_init(wsp.init)] raises [NameError] before
    the argument is read. *)
Definition call_unbound {A : Type} (name : string) : M A := raise (NameError name).

(** [for x in xs: s = body(s, x)], for a loop that updates a local. *)
Fixpoint for_fold {A S : Type} (xs : list A) (s : S) (body : S → A → M S) : M S :=
  match xs with
  | [] => mret s
  | x :: rest => s' ← body s x; for_fold rest s' body
  end.

(** ** Collaborators *)

(** What the module calls and does not define: the dataset's methods, the
    Fabber wrapper, and the pipeline's output and registration routines.
    The dataset methods and Fabber compute from their arguments (Fabber
    also writes progress lines to the log it is given); the pipeline
    routines read and change the workspaces. *)
Class Collaborators : Type := {
  is_var_repeats : AslImage → bool;
  diff : AslImage → outcome AslImage;
  reorder : string → AslImage → outcome AslImage;
  fabber : gmap string value → list string * outcome (gmap string value);
  output_native : value → value → store → store * outcome unit;
  redo_reg : value → value → store → store * outcome unit;
  output_trans : value → store → store * outcome unit }.

Section Api.
Context `{Collaborators}.

(** [asldata.is_var_repeats()] *)
Definition asl_is_var_repeats (v : value) : M bool :=
  match v with
  | VAslImage d => mret (is_var_repeats d)
  | _ => raise (AttributeError "is_var_repeats")
  end.

(** [asldata.diff()] *)
Definition asl_diff (v : value) : M value :=
  match v with
  | VAslImage d => λ w, (emit (EvDiff d) w, VAslImage <$> diff d)
  | _ => raise (AttributeError "diff")
  end.

(** [asldata.reorder(out_order=o)] *)
Definition asl_reorder (v : value) (o : string) : M value :=
  match v with
  | VAslImage d => λ w, (emit (EvReorder o d) w, VAslImage <$> reorder o d)
  | _ => raise (AttributeError "reorder")
  end.

(** [print(options)] *)
Definition py_print (options : gmap string value) : M unit := λ w,
  (emit (EvPrint options) w, Returns tt).

(** [fabber(options, output=LOAD, progress_log=wsp.log, log=wsp.fsllog)] *)
Definition call_fabber (options : gmap string value) : M (gmap string value) := λ w,
  let '(lines, r) := fabber options in
  (mkWorld (mkStore (heap (wstore w)) (log (wstore w) ++ lines))
           (trace w ++ [EvFabber options]), r).

(** A pipeline routine, run on the shared store. *)
Definition call_routine (ev : event) (f : store → store * outcome unit) : M unit := λ w,
  let '(s, r) := f (wstore w) in (mkWorld s (trace w ++ [ev]), r).

(** ** [_run_fabber] *)

Definition _run_fabber (wsp : loc) (options : gmap string value) (desc : string)
  : M (gmap string value) :=
  log_write ("  - " +:+ desc +:+ "     ");;
  result ← call_fabber options;
  log_write (" - DONE" +:+ NL);;
  for_each (map_to_list result) (λ kv, wsp_setattr wsp kv.1 kv.2);;
  logfile ← dict_getitem result "logfile";
  persist ← (if is_none logfile then mret false
             else sd ← wsp_savedir wsp; mret (bool_decide (is_Some sd)));
  (if persist : bool then
     logfile ← dict_getitem result "logfile";
     wsp_set_item wsp "logfile" logfile SaveStr
   else mret tt);;
  mret result.

(** ** [_fabber_options] *)

(** The dictionary literal of lines 39-53. *)
Definition general_options (data mask ti te tau repeats : value) : gmap string value :=
  <["max-iterations" := VInt 30]>
  (<["save-model-fit" := VBool true]>
  (<["save-mean" := VBool true]>
  (<["infertexch" := VBool true]>
  (<["repeats" := repeats]>
  (<["tau" := tau]>
  (<["te" := te]>
  (<["ti" := ti]>
  (<["mask" := mask]>
  (<["data" := data]>
  (<["model" := VStr "asl_multite"]>
  (<["noise" := VStr "white"]>
  (<["method" := VStr "vb"]> ∅)))))))))))).

Definition constant_names : list string := ["t1"; "t1b"; "t2"; "t2b"].

(** The body of the loop of lines 55-58. *)
Definition add_constant (wsp : loc) (options : gmap string value) (opt : string)
  : M (gmap string value) :=
  val ← wsp_ifnone wsp opt VNone;
  if is_none val then mret options else mret (<[opt := val]> options).

Definition _fabber_options (wsp : loc) : M (gmap string value) :=
  data ← wsp_getattr wsp "asldata";
  rois ← wsp_getattr wsp "rois";
  mask ← py_getattr rois "mask";
  asldata ← wsp_getattr wsp "asldata";
  ti ← py_getattr asldata "tis" ≫= py_list;
  asldata ← wsp_getattr wsp "asldata";
  te ← py_getattr asldata "tes" ≫= py_list;
  asldata ← wsp_getattr wsp "asldata";
  tau ← py_getattr asldata "taus" ≫= py_list;
  asldata ← wsp_getattr wsp "asldata";
  repeats ← py_getattr asldata "rpts" ≫= py_first;
  let options := general_options data mask ti te tau repeats in
  options ← for_fold constant_names options (add_constant wsp);
  overrides ← wsp_ifnone wsp "multite_options" (VDict ∅);
  options ← dict_update options overrides;
  mret options.

(** ** [fit_multite] *)

Definition fit_multite (wsp : loc) : M unit :=
  log_write (NL +:+ "Performing multi-TE model fitting:" +:+ NL);;
  asldata ← wsp_getattr wsp "asldata";
  var ← asl_is_var_repeats asldata;
  (if var : bool then
     raise (ValueError "Multi-TE ASL data with variable repeats not currently supported")
   else mret tt);;
  asldata ← wsp_getattr wsp "asldata";
  differenced ← asl_diff asldata;
  reordered ← asl_reorder differenced "etr";
  wsp_setattr wsp "asldata" reordered;;
  flag ← wsp_getattr wsp "multite_init";
  init_mvn ← (if py_truthy flag then
                wsp_sub wsp "init";;
                _ ← call_unbound (A := value) "fit_init";
                init ← wsp_getattr wsp "init";
                py_getattr init "initial_mvn"
              else mret VNone);
  multite ← wsp_getattr wsp "multite" ≫= as_wsp "asldata";
  options ← _fabber_options multite;
  py_print options;;
  multite ← wsp_getattr wsp "multite";
  finalstep ← py_sub multite "finalstep";
  result ← _run_fabber finalstep options "Running Fabber using multi-TE model";
  log_write (NL +:+ "DONE multi-TE decoding" +:+ NL).

(** ** [model_multite] *)

Definition model_multite (wsp : loc) : M unit :=
  wsp_sub wsp "multite";;
  multite ← wsp_getattr wsp "multite" ≫= as_wsp "log";
  fit_multite multite;;
  wsp_sub wsp "output";;
  (* from oxasl import oxford_asl *)
  out ← wsp_getattr wsp "output";
  multite ← wsp_getattr wsp "multite";
  call_routine (EvOutputNative out multite) (output_native out multite);;
  out ← wsp_getattr wsp "output";
  native ← py_getattr out "native";
  perfusion ← py_getattr native "perfusion";
  call_routine (EvRedoReg (VWsp wsp) perfusion) (redo_reg (VWsp wsp) perfusion);;
  out ← wsp_getattr wsp "output";
  call_routine (EvOutputTrans out) (output_trans out);;
  log_write (NL +:+ "DONE processing" +:+ NL).

End Api.

(** ** A concrete pipeline, to run the code on *)

Module Demo.

(** Repeats vary when two volumes' counts differ. *)
Definition demo_is_var_repeats (d : AslImage) : bool :=
  match rpts d with
  | [] => false
  | r :: rest => negb (forallb (Z.eqb r) rest)
  end.

Definition demo_diff (d : AslImage) : outcome AslImage :=
  Returns (mkAslImage (voxels d) "diff" (order d) (tis d) (tes d) (taus d) (rpts d)).

Definition demo_reorder (o : string) (d : AslImage) : outcome AslImage :=
  Returns (mkAslImage (voxels d) (iaf d) o (tis d) (tes d) (taus d) (rpts d)).

Definition demo_result : gmap string value :=
  <["mean_ftiss" := VImage "mean_ftiss"]> (<["logfile" := VStr "/tmp/log.txt"]> ∅).

Definition demo_fabber (options : gmap string value)
  : list string * outcome (gmap string value) :=
  (["fabber: 100%"], Returns demo_result).

(** Run a statement of this module on a store. *)
Definition on_store {A : Type} (m : M A) (s : store) : store * outcome A :=
  let '(w, r) := m (mkWorld s []) in (wstore w, r).

Definition demo_output_native (out mt : value) : store → store * outcome unit :=
  on_store (o ← as_wsp "sub" out;
            native ← wsp_sub o "native";
            ftiss ← py_getattr mt "finalstep" ≫= λ fs, py_getattr fs "mean_ftiss";
            wsp_setattr native "perfusion" ftiss).

Definition demo_redo_reg (wsp ref : value) : store → store * outcome unit :=
  on_store (w ← as_wsp "reg" wsp; wsp_setattr w "regfrom" ref).

Definition demo_output_trans (out : value) : store → store * outcome unit :=
  on_store (o ← as_wsp "sub" out; _ ← wsp_sub o "struc"; mret tt).

#[export] Instance demo : Collaborators := {|
  is_var_repeats := demo_is_var_repeats;
  diff := demo_diff;
  reorder := demo_reorder;
  fabber := demo_fabber;
  output_native := demo_output_native;
  redo_reg := demo_redo_reg;
  output_trans := demo_output_trans |}.

(** A Fabber whose result has no [logfile] entry. *)
Definition fabber_no_logfile (options : gmap string value)
  : list string * outcome (gmap string value) :=
  ([], Returns (<["mean_ftiss" := VImage "mean_ftiss"]> ∅)).

Definition demo_no_logfile : Collaborators := {|
  is_var_repeats := demo_is_var_repeats;
  diff := demo_diff;
  reorder := demo_reorder;
  fabber := fabber_no_logfile;
  output_native := demo_output_native;
  redo_reg := demo_redo_reg;
  output_trans := demo_output_trans |}.

(** Two inversion times, three echo times, label/control pairs, two
    repeats of everything. *)
Definition asl0 : AslImage :=
  mkAslImage "asldata.nii.gz" "tc" "lrt" [1.0; 1.5]%Q [0.01; 0.03; 0.05]%Q [1.8; 1.8]%Q [2; 2]%Z.

Definition asl_var : AslImage :=
  mkAslImage "asldata.nii.gz" "tc" "lrt" [1.0; 1.5]%Q [0.01; 0.03; 0.05]%Q [1.8; 1.8]%Q [2; 3]%Z.

(** The workspace of the pipeline: location 0 is the top-level workspace
    holding the data and the options, location 1 its [rois] sub-workspace. *)
Definition top (extra : gmap string value) (d : AslImage) : Workspace :=
  mkWorkspace (extra ∪ <["asldata" := VAslImage d]> (<["rois" := VWsp 1]> ∅))
    [] (Some "/out") [].

Definition rois0 : Workspace :=
  mkWorkspace (<["mask" := VImage "mask"]> ∅) [0] (Some "/out/rois") [].

Definition world0 (extra : gmap string value) (d : AslImage) : world :=
  mkWorld (mkStore [top extra d; rois0] []) [].

(** The same pipeline once [model_multite] has created the [multite]
    workspace, which is then location 2. *)
Definition staged (extra : gmap string value) (d : AslImage) : world :=
  (wsp_sub 0 "multite" (world0 extra d)).1.

Definition asl0_diff : AslImage :=
  mkAslImage "asldata.nii.gz" "diff" "lrt" [1.0; 1.5]%Q [0.01; 0.03; 0.05]%Q [1.8; 1.8]%Q [2; 2]%Z.

Definition asl0_etr : AslImage :=
  mkAslImage "asldata.nii.gz" "diff" "etr" [1.0; 1.5]%Q [0.01; 0.03; 0.05]%Q [1.8; 1.8]%Q [2; 2]%Z.

Definition plain : gmap string value := ∅.

Definition with_init : gmap string value := <["multite_init" := VBool true]> ∅.

Definition with_t1 : gmap string value := <["t1" := VFloat 1.3]> ∅.

Definition more_iterations : gmap string value := <["max-iterations" := VInt 50]> ∅.

Definition with_more_iterations : gmap string value :=
  <["multite_options" := VDict more_iterations]> ∅.

Definition other_data : gmap string value := <["data" := VStr "other.nii.gz"]> ∅.

Definition with_other_data : gmap string value :=
  <["multite_options" := VDict other_data]> ∅.

End Demo.

(** Further inputs: an engine that fails, a dataset without repeat counts,
    a pipeline without [rois]. *)
Module Cases.
Import Demo.

Definition failing_fabber (options : gmap string value)
  : list string * outcome (gmap string value) :=
  (["fabber: error"], Raises (CollaboratorError "fabber failed")).

Definition demo_failing : Collaborators := {|
  is_var_repeats := demo_is_var_repeats;
  diff := demo_diff;
  reorder := demo_reorder;
  fabber := failing_fabber;
  output_native := demo_output_native;
  redo_reg := demo_redo_reg;
  output_trans := demo_output_trans |}.

Definition failing_diff (d : AslImage) : outcome AslImage :=
  Raises (CollaboratorError "cannot difference").

Definition demo_no_diff : Collaborators := {|
  is_var_repeats := demo_is_var_repeats;
  diff := failing_diff;
  reorder := demo_reorder;
  fabber := demo_fabber;
  output_native := demo_output_native;
  redo_reg := demo_redo_reg;
  output_trans := demo_output_trans |}.

Definition asl_no_rpts : AslImage :=
  mkAslImage "asldata.nii.gz" "tc" "lrt" [1.0; 1.5]%Q [0.01; 0.03; 0.05]%Q [1.8; 1.8]%Q [].

(** A top-level workspace with a dataset and nothing else. *)
Definition bare (d : AslImage) : world :=
  mkWorld (mkStore [mkWorkspace (<["asldata" := VAslImage d]> ∅) [] None []] []) [].

(** A top-level workspace with nothing in it. *)
Definition empty_world : world :=
  mkWorld (mkStore [mkWorkspace ∅ [] None []] []) [].

Definition with_t1_and_more : gmap string value :=
  <["t1" := VFloat 1.3]> (<["multite_options" := VDict more_iterations]> ∅).

End Cases.

(** * What the statements are compared with *)

(** The loop of lines 26-27 leaves every entry of the result in the
    workspace's own dictionary. *)
Definition write_all (result : gmap string value) (n : Workspace) : Workspace :=
  foldl (λ n kv, set_attr kv.1 kv.2 n) n (map_to_list result).

(** What lines 26-30 do to the target workspace object. *)
Definition after_fabber (result : gmap string value) (n : Workspace) : Workspace :=
  let n1 := write_all result n in
  match result !! "logfile" with
  | Some logfile =>
      if negb (is_none logfile) && bool_decide (is_Some (savedir n))
      then register_item "logfile" logfile SaveStr (set_attr "logfile" logfile n1)
      else n1
  | None => n1
  end.

Definition fabber_log (desc : string) (lines : list string) (l : list string) : list string :=
  ((l ++ ["  - " +:+ desc +:+ "     "]) ++ lines) ++ [" - DONE" +:+ NL].

(** The loop of lines 55-58 as a function of the heap it reads. *)
Definition with_constants (h : list Workspace) (l : loc) (names : list string)
    (options : gmap string value) : gmap string value :=
  foldl (λ o opt, let val := wsp_lookup h l opt in
                  if is_none val then o else <[opt := val]> o) options names.

(** The override mapping denoted by the value of [multite_options]. *)
Definition overrides_of (v : value) : option (gmap string value) :=
  match v with
  | VNone => Some ∅
  | VDict d => Some d
  | _ => None
  end.

(** A workspace from which the options can be assembled: it sees a dataset
    with a first repeat count, a [rois] workspace, and its
    [multite_options], if any, are a dictionary. *)
Record valid_config (h : list Workspace) (l : loc) (d : AslImage) (mask : value)
    (repeats : Z) (overrides : gmap string value) : Prop := {
  cfg_asldata : wsp_lookup h l "asldata" = VAslImage d;
  cfg_mask : ∃ r, wsp_lookup h l "rois" = VWsp r ∧ wsp_lookup h r "mask" = mask;
  cfg_repeats : head (rpts d) = Some repeats;
  cfg_overrides : overrides_of (wsp_lookup h l "multite_options") = Some overrides }.

(** The options before the override layer. *)
Definition lower_layers (h : list Workspace) (l : loc) (d : AslImage) (mask : value)
    (repeats : Z) : gmap string value :=
  with_constants h l constant_names
    (general_options (VAslImage d) mask (VList (VFloat <$> tis d))
       (VList (VFloat <$> tes d)) (VList (VFloat <$> taus d)) (VInt repeats)).

Definition fixed_keys : list string :=
  ["method"; "noise"; "model"; "data"; "mask"; "ti"; "te"; "tau"; "repeats";
   "infertexch"; "save-mean"; "save-model-fit"; "max-iterations"].

Definition fit_banner : string := NL +:+ "Performing multi-TE model fitting:" +:+ NL.
Definition fit_done : string := NL +:+ "DONE multi-TE decoding" +:+ NL.
Definition fabber_desc : string := "Running Fabber using multi-TE model".
Definition var_repeats_error : exn :=
  ValueError "Multi-TE ASL data with variable repeats not currently supported".

(** The world once line 74 has stored the transformed dataset [d2]. *)
Definition after_assignment (wsp : loc) (d d1 d2 : AslImage) (w : world) : world :=
  mkWorld
    (mkStore (alter (set_attr "asldata" (VAslImage d2)) wsp (heap (wstore w)))
       (log (wstore w) ++ [fit_banner]))
    ((trace w ++ [EvDiff d]) ++ [EvReorder "etr" d1]).

(** The world in which [_run_fabber] is called: the options have been
    printed and the [finalstep] workspace created below [q]. *)
Definition before_fabber (q : loc) (opts : gmap string value) (w : world) : world :=
  mkWorld
    (mkStore (alter (set_attr "finalstep" (VWsp (length (heap (wstore w))))) q
                (heap (wstore w) ++ [new_child (heap (wstore w)) q "finalstep"]))
       (log (wstore w)))
    (trace w ++ [EvPrint opts]).

(** The collaborator calls of a run past line 74. *)
Definition engine_calls (wsp : loc) (d d1 d2 : AslImage) (w : world) : list event :=
  if py_truthy (wsp_lookup (heap (wstore w)) wsp "multite_init") then []
  else match wsp_lookup (heap (wstore w)) wsp "multite" with
       | VWsp q =>
           match (_fabber_options q (after_assignment wsp d d1 d2 w)).2 with
           | Returns opts => [EvPrint opts; EvFabber opts]
           | Raises _ => []
           end
       | _ => []
       end.

Definition done_processing : string := NL +:+ "DONE processing" +:+ NL.

(** [wsp.output.native.perfusion] *)
Definition read_perfusion (wsp : loc) : M value :=
  out ← wsp_getattr wsp "output";
  native ← py_getattr out "native";
  py_getattr native "perfusion".

(** Statements that only read. *)
Definition reads {A : Type} (m : M A) : Prop := ∀ w, (m w).1 = w.

(** Statements that call no collaborator. *)
Definition silent {A : Type} (m : M A) : Prop := ∀ w, trace (m w).1 = trace w.

(** Statements that change no workspace object other than [wsp], and
    create none. *)
Definition confined (wsp : loc) {A : Type} (m : M A) : Prop :=
  ∀ w, length (heap (wstore (m w).1)) = length (heap (wstore w)) ∧
       ∀ l, l ≠ wsp → heap (wstore (m w).1) !! l = heap (wstore w) !! l.

Section Steps.
Context `{Collaborators}.

(** The four steps of the pipeline, in the order of the specification, and
    where a run may end.  [w1] is the world once the [multite] workspace
    [mt] exists, [w2] the world left by the fit, [w3] the world once the
    [output] workspace [out] exists, [s4], [s5] and [s6] the stores left by
    the three pipeline routines. *)
Inductive four_steps (wsp : loc) (w : world) : world * outcome unit → Prop :=
| fit_aborts (w2 : world) (e : exn) :
    fit_multite (length (heap (wstore w))) (wsp_sub wsp "multite" w).1 = (w2, Raises e) →
    four_steps wsp w (w2, Raises e)
| native_output_aborts (w2 : world) (s4 : store) (e : exn) :
    let mt := length (heap (wstore w)) in
    let out := length (heap (wstore w2)) in
    let w3 := (wsp_sub wsp "output" w2).1 in
    fit_multite mt (wsp_sub wsp "multite" w).1 = (w2, Returns tt) →
    output_native (VWsp out) (VWsp mt) (wstore w3) = (s4, Raises e) →
    four_steps wsp w
      (mkWorld s4 (trace w3 ++ [EvOutputNative (VWsp out) (VWsp mt)]), Raises e)
| perfusion_missing (w2 : world) (s4 : store) (e : exn) :
    let mt := length (heap (wstore w)) in
    let out := length (heap (wstore w2)) in
    let w3 := (wsp_sub wsp "output" w2).1 in
    let w4 := mkWorld s4 (trace w3 ++ [EvOutputNative (VWsp out) (VWsp mt)]) in
    fit_multite mt (wsp_sub wsp "multite" w).1 = (w2, Returns tt) →
    output_native (VWsp out) (VWsp mt) (wstore w3) = (s4, Returns tt) →
    read_perfusion wsp w4 = (w4, Raises e) →
    four_steps wsp w (w4, Raises e)
| reregistration_aborts (w2 : world) (s4 s5 : store) (perfusion : value) (e : exn) :
    let mt := length (heap (wstore w)) in
    let out := length (heap (wstore w2)) in
    let w3 := (wsp_sub wsp "output" w2).1 in
    let w4 := mkWorld s4 (trace w3 ++ [EvOutputNative (VWsp out) (VWsp mt)]) in
    fit_multite mt (wsp_sub wsp "multite" w).1 = (w2, Returns tt) →
    output_native (VWsp out) (VWsp mt) (wstore w3) = (s4, Returns tt) →
    read_perfusion wsp w4 = (w4, Returns perfusion) →
    redo_reg (VWsp wsp) perfusion s4 = (s5, Raises e) →
    four_steps wsp w
      (mkWorld s5 (trace w4 ++ [EvRedoReg (VWsp wsp) perfusion]), Raises e)
| transformed_output_ends (w2 : world) (s4 s5 s6 : store) (perfusion : value)
    (r : outcome unit) :
    let mt := length (heap (wstore w)) in
    let out := length (heap (wstore w2)) in
    let w3 := (wsp_sub wsp "output" w2).1 in
    let w4 := mkWorld s4 (trace w3 ++ [EvOutputNative (VWsp out) (VWsp mt)]) in
    let w5 := mkWorld s5 (trace w4 ++ [EvRedoReg (VWsp wsp) perfusion]) in
    let outv := wsp_lookup (heap s5) wsp "output" in
    let w6 := mkWorld s6 (trace w5 ++ [EvOutputTrans outv]) in
    fit_multite mt (wsp_sub wsp "multite" w).1 = (w2, Returns tt) →
    output_native (VWsp out) (VWsp mt) (wstore w3) = (s4, Returns tt) →
    read_perfusion wsp w4 = (w4, Returns perfusion) →
    redo_reg (VWsp wsp) perfusion s4 = (s5, Returns tt) →
    output_trans outv s5 = (s6, r) →
    four_steps wsp w
      match r with
      | Returns _ =>
          (mkWorld (mkStore (heap s6) (log s6 ++ [done_processing])) (trace w6), Returns tt)
      | Raises e => (w6, Raises e)
      end.

End Steps.

(** * Properties *)

(** ** Running statements *)

Lemma bind_run {A B : Type} (m : M A) (f : A → M B) (w : world) :
  (m ≫= f) w =
  match m w with
  | (w', Returns a) => f a w'
  | (w', Raises e) => (w', Raises e)
  end.
Proof. reflexivity. Qed.

Lemma bind_returns {A B : Type} (m : M A) (f : A → M B) (w w' : world) (a : A) :
  m w = (w', Returns a) → (m ≫= f) w = f a w'.
Proof. intros E. rewrite bind_run, E. reflexivity. Qed.

Lemma bind_raises {A B : Type} (m : M A) (f : A → M B) (w w' : world) (e : exn) :
  m w = (w', Raises e) → (m ≫= f) w = (w', Raises e).
Proof. intros E. rewrite bind_run, E. reflexivity. Qed.

Lemma mret_run {A : Type} (a : A) (w : world) : mret (M := M) a w = (w, Returns a).
Proof. reflexivity. Qed.

Lemma raise_run {A : Type} (e : exn) (w : world) : raise (A := A) e w = (w, Raises e).
Proof. reflexivity. Qed.

Lemma wsp_getattr_run (l : loc) (k : string) (w : world) :
  wsp_getattr l k w = (w, Returns (wsp_lookup (heap (wstore w)) l k)).
Proof. reflexivity. Qed.

Lemma wsp_ifnone_run (l : loc) (k : string) (alt : value) (w : world) :
  wsp_ifnone l k alt w
  = (w, Returns (if is_none (wsp_lookup (heap (wstore w)) l k) then alt
                 else wsp_lookup (heap (wstore w)) l k)).
Proof. reflexivity. Qed.

Lemma py_getattr_wsp (l : loc) (k : string) (w : world) :
  py_getattr (VWsp l) k w = (w, Returns (wsp_lookup (heap (wstore w)) l k)).
Proof. reflexivity. Qed.

Lemma py_getattr_tis (d : AslImage) (w : world) :
  py_getattr (VAslImage d) "tis" w = (w, Returns (VList (VFloat <$> tis d))).
Proof. reflexivity. Qed.

Lemma py_getattr_tes (d : AslImage) (w : world) :
  py_getattr (VAslImage d) "tes" w = (w, Returns (VList (VFloat <$> tes d))).
Proof. reflexivity. Qed.

Lemma py_getattr_taus (d : AslImage) (w : world) :
  py_getattr (VAslImage d) "taus" w = (w, Returns (VList (VFloat <$> taus d))).
Proof. reflexivity. Qed.

Lemma py_getattr_rpts (d : AslImage) (w : world) :
  py_getattr (VAslImage d) "rpts" w = (w, Returns (VList (VInt <$> rpts d))).
Proof. reflexivity. Qed.

Lemma py_list_run (l : list value) (w : world) :
  py_list (VList l) w = (w, Returns (VList l)).
Proof. reflexivity. Qed.

Lemma as_wsp_run (attr : string) (l : loc) (w : world) :
  as_wsp attr (VWsp l) w = (w, Returns l).
Proof. reflexivity. Qed.

Lemma log_write_run (s : string) (w : world) :
  log_write s w
  = (mkWorld (mkStore (heap (wstore w)) (log (wstore w) ++ [s])) (trace w), Returns tt).
Proof. reflexivity. Qed.

Lemma wsp_setattr_run (l : loc) (k : string) (v : value) (w : world) :
  wsp_setattr l k v w = (on_heap (alter (set_attr k v) l) w, Returns tt).
Proof. reflexivity. Qed.

Lemma wsp_sub_run (l : loc) (name : string) (w : world) :
  wsp_sub l name w
  = (on_heap (λ h, alter (set_attr name (VWsp (length h))) l (h ++ [new_child h l name])) w,
     Returns (length (heap (wstore w)))).
Proof. reflexivity. Qed.

(** Symbolic execution of a statement applied to a world. *)
Ltac run_step :=
  first
    [ rewrite bind_run | rewrite mret_run | rewrite raise_run
    | rewrite wsp_getattr_run | rewrite wsp_ifnone_run | rewrite py_getattr_wsp
    | rewrite py_getattr_tis | rewrite py_getattr_tes | rewrite py_getattr_taus
    | rewrite py_getattr_rpts | rewrite py_list_run | rewrite as_wsp_run
    | rewrite log_write_run | rewrite wsp_setattr_run | rewrite wsp_sub_run ].

Ltac run := repeat (run_step; cbv beta iota).

(** ** The heap of workspaces *)

Lemma own_attr_set_eq (h : list Workspace) (l : loc) (k : string) (v : value) :
  l < length h → own_attr (alter (set_attr k v) l h) l k = Some v.
Proof.
  intros Hl. destruct (lookup_lt_is_Some_2 h l Hl) as [n Hn].
  unfold own_attr. rewrite list_lookup_alter_eq, Hn. simpl.
  apply lookup_insert_eq.
Qed.

Lemma own_attr_set_ne (h : list Workspace) (l l' : loc) (k k' : string) (v : value) :
  l ≠ l' ∨ k ≠ k' →
  own_attr (alter (set_attr k v) l h) l' k' = own_attr h l' k'.
Proof.
  intros Hne. unfold own_attr.
  destruct (decide (l = l')) as [<-|Hl].
  - destruct Hne as [Hne|Hne]; [done|].
    rewrite list_lookup_alter_eq. destruct (h !! l); simpl; [|done].
    by apply lookup_insert_ne.
  - by rewrite list_lookup_alter_ne.
Qed.

Lemma own_attr_app (h : list Workspace) (n : Workspace) (l : loc) (k : string) :
  l < length h → own_attr (h ++ [n]) l k = own_attr h l k.
Proof. intros Hl. unfold own_attr. by rewrite lookup_app_l. Qed.

Lemma parents_of_alter (h : list Workspace) (f : Workspace → Workspace) (l l' : loc) :
  (∀ n, parents (f n) = parents n) →
  parents_of (alter f l h) l' = parents_of h l'.
Proof.
  intros Hf. unfold parents_of.
  destruct (decide (l = l')) as [<-|Hl].
  - rewrite list_lookup_alter_eq. destruct (h !! l); simpl; [apply Hf|done].
  - by rewrite list_lookup_alter_ne.
Qed.

Lemma lookup_chain_set_ne (h : list Workspace) (l : loc) (k k' : string) (v : value)
    (chain : list loc) :
  k ≠ k' →
  lookup_chain (alter (set_attr k v) l h) chain k' = lookup_chain h chain k'.
Proof.
  intros Hk. induction chain as [|c chain IH]; simpl; [done|].
  rewrite own_attr_set_ne by auto. by rewrite IH.
Qed.

(** Setting an attribute changes what that name denotes in the workspace
    itself, and no other name anywhere. *)
Lemma wsp_lookup_set_eq (h : list Workspace) (l : loc) (k : string) (v : value) :
  l < length h → wsp_lookup (alter (set_attr k v) l h) l k = v.
Proof. intros Hl. unfold wsp_lookup. simpl. by rewrite own_attr_set_eq. Qed.

Lemma wsp_lookup_set_ne (h : list Workspace) (l l' : loc) (k k' : string) (v : value) :
  k ≠ k' → wsp_lookup (alter (set_attr k v) l h) l' k' = wsp_lookup h l' k'.
Proof.
  intros Hk. unfold wsp_lookup.
  rewrite parents_of_alter by done. by apply lookup_chain_set_ne.
Qed.

Lemma set_attrs_attrs (kvs : list (string * value)) (n : Workspace) :
  attrs (foldl (λ n kv, set_attr kv.1 kv.2 n) n kvs)
  = foldl (λ a kv, <[kv.1 := kv.2]> a) (attrs n) kvs.
Proof. revert n. induction kvs as [|[k v] kvs IH]; intros n; simpl; [done|]. by rewrite IH. Qed.

Lemma foldl_insert_union (kvs : list (string * value)) (a : gmap string value) :
  NoDup kvs.*1 →
  foldl (λ a kv, <[kv.1 := kv.2]> a) a kvs = list_to_map kvs ∪ a.
Proof.
  revert a. induction kvs as [|[k v] kvs IH]; intros a Hnd; simpl.
  - by rewrite (left_id_L ∅ (∪)).
  - inversion Hnd as [|? ? Hk Hnd']; subst.
    rewrite IH by done. rewrite <- insert_union_l.
    rewrite insert_union_r; [done|].
    by apply not_elem_of_list_to_map_1.
Qed.

Lemma write_all_attrs (result : gmap string value) (n : Workspace) :
  attrs (write_all result n) = result ∪ attrs n.
Proof.
  unfold write_all. rewrite set_attrs_attrs.
  rewrite foldl_insert_union by apply NoDup_fst_map_to_list.
  by rewrite list_to_map_to_list.
Qed.

Lemma alter_twice (f g : Workspace → Workspace) (l : loc) (h : list Workspace) :
  alter f l (alter g l h) = alter (λ n, f (g n)) l h.
Proof.
  apply list_eq. intros i. destruct (decide (l = i)) as [<-|Hne].
  - rewrite !list_lookup_alter_eq. by destruct (h !! l).
  - by rewrite !list_lookup_alter_ne.
Qed.

Lemma for_each_setattr (l : loc) (kvs : list (string * value)) (w : world) :
  for_each kvs (λ kv, wsp_setattr l kv.1 kv.2) w
  = (on_heap (alter (λ n, foldl (λ n kv, set_attr kv.1 kv.2 n) n kvs) l) w, Returns tt).
Proof.
  revert w. induction kvs as [|[k v] kvs IH]; intros w; simpl.
  - unfold mret, M_ret, on_heap. rewrite list_alter_id by done. by destruct w as [[??]?].
  - rewrite bind_run. unfold wsp_setattr at 1. rewrite IH.
    unfold on_heap. simpl. by rewrite alter_twice.
Qed.

Lemma write_all_savedir (result : gmap string value) (n : Workspace) :
  savedir (write_all result n) = savedir n.
Proof.
  unfold write_all. generalize (map_to_list result). intros kvs. revert n.
  induction kvs as [|[k v] kvs IH]; intros n; simpl; [done|]. by rewrite IH.
Qed.

Lemma write_all_saved (result : gmap string value) (n : Workspace) :
  saved (write_all result n) = saved n.
Proof.
  unfold write_all. generalize (map_to_list result). intros kvs. revert n.
  induction kvs as [|[k v] kvs IH]; intros n; simpl; [done|]. by rewrite IH.
Qed.

Lemma write_all_parents (result : gmap string value) (n : Workspace) :
  parents (write_all result n) = parents n.
Proof.
  unfold write_all. generalize (map_to_list result). intros kvs. revert n.
  induction kvs as [|[k v] kvs IH]; intros n; simpl; [done|]. by rewrite IH.
Qed.

(** ** [_run_fabber] *)

Section RunFabber.
Context `{Collaborators}.

Lemma _run_fabber_raises (wsp : loc) (options : gmap string value) (desc : string)
    (lines : list string) (e : exn) (w : world) :
  fabber options = (lines, Raises e) →
  _run_fabber wsp options desc w
  = (mkWorld (mkStore (heap (wstore w))
                (((log (wstore w)) ++ ["  - " +:+ desc +:+ "     "]) ++ lines))
       (trace w ++ [EvFabber options]), Raises e).
Proof.
  intros Hf. unfold _run_fabber. rewrite bind_run. unfold log_write at 1.
  rewrite bind_run. unfold call_fabber. rewrite Hf. reflexivity.
Qed.

Lemma _run_fabber_run (wsp : loc) (options result : gmap string value) (desc : string)
    (lines : list string) (w : world) (n : Workspace) :
  fabber options = (lines, Returns result) →
  heap (wstore w) !! wsp = Some n →
  _run_fabber wsp options desc w
  = (mkWorld (mkStore (alter (after_fabber result) wsp (heap (wstore w)))
                (fabber_log desc lines (log (wstore w))))
       (trace w ++ [EvFabber options]),
     match result !! "logfile" with
     | Some _ => Returns result
     | None => Raises (KeyError "logfile")
     end).
Proof.
  intros Hf Hn.
  assert (Halt : ∀ f g : Workspace → Workspace, f n = g n →
            alter f wsp (heap (wstore w)) = alter g wsp (heap (wstore w))).
  { intros f g Hfg. apply list_alter_ext; [|done]. intros x Hx. congruence. }
  unfold _run_fabber. rewrite bind_run. unfold log_write at 1.
  rewrite bind_run. unfold call_fabber at 1. rewrite Hf. cbv beta iota.
  rewrite bind_run. unfold log_write at 1. rewrite bind_run, for_each_setattr.
  fold (write_all result). rewrite bind_run. unfold dict_getitem at 1.
  unfold on_heap, fabber_log. simpl.
  destruct (result !! "logfile") as [lf|] eqn:Elf.
  2:{ unfold raise. do 3 f_equal. apply Halt. unfold after_fabber. by rewrite Elf. }
  unfold mbind, M_bind, mret, M_ret. simpl.
  destruct (is_none lf) eqn:En; simpl.
  { do 3 f_equal. apply Halt. unfold after_fabber. by rewrite Elf, En. }
  unfold wsp_savedir. simpl.
  rewrite list_lookup_alter_eq, Hn. simpl. rewrite write_all_savedir.
  destruct (bool_decide (is_Some (savedir n))) eqn:Esd; simpl.
  2:{ do 3 f_equal. apply Halt. unfold after_fabber. by rewrite Elf, En, Esd. }
  unfold dict_getitem. rewrite Elf. simpl.
  unfold wsp_set_item, on_heap. simpl. rewrite alter_twice.
  do 3 f_equal. apply Halt. unfold after_fabber. by rewrite Elf, En, Esd.
Qed.

End RunFabber.

Lemma silent_ret {A : Type} (a : A) : silent (mret (M := M) a).
Proof. by intros w. Qed.

Lemma silent_raise {A : Type} (e : exn) : silent (raise (A := A) e).
Proof. by intros w. Qed.

Lemma silent_bind {A B : Type} (m : M A) (f : A → M B) :
  silent m → (∀ a, silent (f a)) → silent (m ≫= f).
Proof.
  intros Hm Hf w. rewrite bind_run. specialize (Hm w).
  destruct (m w) as [w1 [a|e]]; simpl in Hm; [|done]. by rewrite Hf.
Qed.

Lemma silent_for_each {A : Type} (xs : list A) (body : A → M unit) :
  (∀ x, silent (body x)) → silent (for_each xs body).
Proof.
  intros Hb. induction xs as [|x xs IH]; [apply silent_ret|].
  apply silent_bind; [apply Hb|by intros _].
Qed.

Lemma silent_run_fabber_tail (wsp : loc) (result : gmap string value) :
  silent (log_write (" - DONE" +:+ NL);;
          for_each (map_to_list result) (λ kv, wsp_setattr wsp kv.1 kv.2);;
          logfile ← dict_getitem result "logfile";
          persist ← (if is_none logfile then mret false
                     else sd ← wsp_savedir wsp; mret (bool_decide (is_Some sd)));
          (if persist : bool then
             logfile ← dict_getitem result "logfile";
             wsp_set_item wsp "logfile" logfile SaveStr
           else mret tt);;
          mret result).
Proof.
  assert (Hg : ∀ k, silent (dict_getitem result k)).
  { intros k. unfold dict_getitem. case_match; [apply silent_ret|apply silent_raise]. }
  apply silent_bind; [by intros w|intros _].
  apply silent_bind; [apply silent_for_each; by intros ? ?|intros _].
  apply silent_bind; [apply Hg|intros lf].
  apply silent_bind.
  { case_match; [apply silent_ret|].
    apply silent_bind; [by intros w|intros ?; apply silent_ret]. }
  intros [|]; (apply silent_bind; [|intros ?; apply silent_ret]).
  - apply silent_bind; [apply Hg|by intros ? ?].
  - apply silent_ret.
Qed.

Section RunFabberTrace.
Context `{Collaborators}.

(** Whatever happens, [_run_fabber] calls the engine once, with the
    options it was given. *)
Lemma _run_fabber_trace (wsp : loc) (options : gmap string value) (desc : string)
    (w : world) :
  trace (_run_fabber wsp options desc w).1 = trace w ++ [EvFabber options].
Proof.
  unfold _run_fabber. rewrite bind_run, log_write_run. cbv beta iota.
  rewrite bind_run. unfold call_fabber at 1. cbn [wstore heap log trace].
  destruct (fabber options) as [lines [result|e]]; [|done].
  cbv beta iota. by rewrite silent_run_fabber_tail.
Qed.

End RunFabberTrace.

Lemma wsp_lookup_own (h : list Workspace) (l : loc) (k : string) (v : value) :
  own_attr h l k = Some v → wsp_lookup h l k = v.
Proof. intros Ho. unfold wsp_lookup. simpl. by rewrite Ho. Qed.

Lemma after_fabber_attrs (result : gmap string value) (n : Workspace) (k : string) (v : value) :
  result !! k = Some v → attrs (after_fabber result n) !! k = Some v.
Proof.
  intros Hk.
  assert (Hw : attrs (write_all result n) !! k = Some v).
  { rewrite write_all_attrs. by apply lookup_union_Some_l. }
  unfold after_fabber. destruct (result !! "logfile") as [lf|] eqn:Elf; [|done].
  destruct (negb (is_none lf) && bool_decide (is_Some (savedir n))); [|done].
  simpl. destruct (decide ("logfile" = k)) as [<-|Hne].
  - rewrite lookup_insert_eq. congruence.
  - by rewrite lookup_insert_ne.
Qed.

Lemma after_fabber_saved (result : gmap string value) (n : Workspace) :
  saved (after_fabber result n)
  = saved n ++
    match result !! "logfile" with
    | Some logfile =>
        if negb (is_none logfile) && bool_decide (is_Some (savedir n))
        then [("logfile", logfile, SaveStr)] else []
    | None => []
    end.
Proof.
  unfold after_fabber. destruct (result !! "logfile") as [lf|].
  - destruct (negb (is_none lf) && bool_decide (is_Some (savedir n))); simpl.
    + by rewrite write_all_saved.
    + by rewrite write_all_saved, app_nil_r.
  - by rewrite write_all_saved, app_nil_r.
Qed.

Section RunFabberClaims.
Context `{Collaborators}.

(** C6.  When the inference engine returns [result], [_run_fabber] leaves
    every entry of [result] readable as an attribute of the target
    workspace, and the target's persistence registry gains the single item
    ["logfile"] exactly when the result has a [logfile] entry that is not
    [None] and the workspace has a persistence directory; otherwise the
    registry is unchanged.  With a [logfile] entry present the call returns
    [result]. *)
Theorem run_fabber_writes_result (wsp : loc) (options result : gmap string value)
    (desc : string) (lines : list string) (w : world) (n : Workspace) :
  fabber options = (lines, Returns result) →
  heap (wstore w) !! wsp = Some n →
  let run := _run_fabber wsp options desc w in
  (∀ k v, result !! k = Some v → wsp_lookup (heap (wstore run.1)) wsp k = v) ∧
  (∃ n', heap (wstore run.1) !! wsp = Some n' ∧
         saved n' = saved n ++
           match result !! "logfile" with
           | Some logfile =>
               if negb (is_none logfile) && bool_decide (is_Some (savedir n))
               then [("logfile", logfile, SaveStr)] else []
           | None => []
           end) ∧
  (is_Some (result !! "logfile") → run.2 = Returns result).
Proof.
  intros Hf Hn run. subst run. rewrite (_run_fabber_run _ _ _ _ _ _ _ Hf Hn). simpl.
  split; [|split].
  - intros k v Hk. apply wsp_lookup_own. unfold own_attr.
    rewrite list_lookup_alter_eq, Hn. simpl. by apply after_fabber_attrs.
  - exists (after_fabber result n). split.
    + by rewrite list_lookup_alter_eq, Hn.
    + apply after_fabber_saved.
  - intros [lf Hlf]. by rewrite Hlf.
Qed.

(** C9.  When the engine's result has no ["logfile"] key at all,
    [_run_fabber] raises [KeyError], and it does so after the loop: every
    entry of the result is by then an attribute of the target workspace,
    whose dictionary is the old one overwritten by the result. *)
Theorem run_fabber_missing_logfile (wsp : loc) (options result : gmap string value)
    (desc : string) (lines : list string) (w : world) (n : Workspace) :
  fabber options = (lines, Returns result) →
  heap (wstore w) !! wsp = Some n →
  result !! "logfile" = None →
  let run := _run_fabber wsp options desc w in
  run.2 = Raises (KeyError "logfile") ∧
  (∀ k v, result !! k = Some v → wsp_lookup (heap (wstore run.1)) wsp k = v) ∧
  (∃ n', heap (wstore run.1) !! wsp = Some n' ∧ attrs n' = result ∪ attrs n).
Proof.
  intros Hf Hn Hlf run. subst run. rewrite (_run_fabber_run _ _ _ _ _ _ _ Hf Hn). simpl.
  rewrite Hlf. split; [done|split].
  - intros k v Hk. apply wsp_lookup_own. unfold own_attr.
    rewrite list_lookup_alter_eq, Hn. simpl. by apply after_fabber_attrs.
  - exists (after_fabber result n). split.
    + by rewrite list_lookup_alter_eq, Hn.
    + unfold after_fabber. rewrite Hlf. apply write_all_attrs.
Qed.

End RunFabberClaims.

(** ** [_fabber_options] *)

Lemma add_constant_run (l : loc) (options : gmap string value) (opt : string) (w : world) :
  add_constant l options opt w
  = (w, Returns (if is_none (wsp_lookup (heap (wstore w)) l opt) then options
                 else <[opt := wsp_lookup (heap (wstore w)) l opt]> options)).
Proof.
  unfold add_constant. run.
  destruct (wsp_lookup (heap (wstore w)) l opt); reflexivity.
Qed.

Lemma for_fold_add_constant (l : loc) (names : list string) (options : gmap string value)
    (w : world) :
  for_fold names options (add_constant l) w
  = (w, Returns (with_constants (heap (wstore w)) l names options)).
Proof.
  revert options. induction names as [|opt names IH]; intros options; [done|].
  cbn [for_fold]. rewrite bind_run, add_constant_run. cbv beta iota.
  rewrite IH. reflexivity.
Qed.

Lemma _fabber_options_run (l : loc) (w : world) (d : AslImage) (mask : value)
    (repeats : Z) (overrides : gmap string value) :
  valid_config (heap (wstore w)) l d mask repeats overrides →
  _fabber_options l w
  = (w, Returns (overrides ∪ lower_layers (heap (wstore w)) l d mask repeats)).
Proof.
  intros [Hd (r & Hr & Hm) Hrp Hov].
  destruct (rpts d) as [|r0 rs] eqn:Erp; [done|]. injection Hrp as ->.
  unfold _fabber_options.
  repeat (run; rewrite ?Hd, ?Hr, ?Hm, ?Erp; cbn [fmap list_fmap py_first]).
  rewrite for_fold_add_constant. run.
  fold (lower_layers (heap (wstore w)) l d mask repeats).
  destruct (wsp_lookup (heap (wstore w)) l "multite_options"); simpl in Hov; try done;
    injection Hov as <-; reflexivity.
Qed.

Lemma _fabber_options_inv (l : loc) (w w' : world) (d : AslImage)
    (res : outcome (gmap string value)) :
  wsp_lookup (heap (wstore w)) l "asldata" = VAslImage d →
  _fabber_options l w = (w', res) →
  w' = w ∧
  ∀ opts, res = Returns opts →
    ∃ mask repeats overrides,
      valid_config (heap (wstore w)) l d mask repeats overrides ∧
      opts = overrides ∪ lower_layers (heap (wstore w)) l d mask repeats.
Proof.
  intros Hd. unfold _fabber_options. run.
  destruct (wsp_lookup (heap (wstore w)) l "rois") as [| | | | | | | | |r] eqn:Hr;
    try (intros [= <- <-]; by split).
  destruct (rpts d) as [|r0 rs] eqn:Erp.
  { repeat (run; rewrite ?Hd, ?Hr, ?Erp; cbn [fmap list_fmap py_first]).
    intros [= <- <-]; by split. }
  repeat (run; rewrite ?Hd, ?Hr, ?Erp; cbn [fmap list_fmap py_first]).
  rewrite for_fold_add_constant. run.
  fold (lower_layers (heap (wstore w)) l d (wsp_lookup (heap (wstore w)) r "mask") r0).
  destruct (wsp_lookup (heap (wstore w)) l "multite_options") as [| | | | | |ov| | |] eqn:Ho;
    try (intros [= <- <-]; by split).
  - intros [= <- <-]. split; [done|]. intros opts [= <-].
    exists (wsp_lookup (heap (wstore w)) r "mask"), r0, ∅.
    split; [|done].
    constructor; [done | by exists r | by rewrite Erp | by rewrite Ho].
  - intros [= <- <-]. split; [done|]. intros opts [= <-].
    exists (wsp_lookup (heap (wstore w)) r "mask"), r0, ov.
    split; [|done].
    constructor; [done | by exists r | by rewrite Erp | by rewrite Ho].
Qed.

Lemma reads_ret {A : Type} (a : A) : reads (mret (M := M) a).
Proof. by intros w. Qed.

Lemma reads_raise {A : Type} (e : exn) : reads (raise (A := A) e).
Proof. by intros w. Qed.

Lemma reads_bind {A B : Type} (m : M A) (f : A → M B) :
  reads m → (∀ a, reads (f a)) → reads (m ≫= f).
Proof.
  intros Hm Hf w. rewrite bind_run. specialize (Hm w).
  destruct (m w) as [w1 [a|e]]; simpl in Hm; subst; [apply Hf|done].
Qed.

Lemma reads_wsp_getattr (l : loc) (k : string) : reads (wsp_getattr l k).
Proof. by intros w. Qed.

Lemma reads_wsp_ifnone (l : loc) (k : string) (alt : value) : reads (wsp_ifnone l k alt).
Proof. by intros w. Qed.

Lemma reads_py_getattr (v : value) (k : string) : reads (py_getattr v k).
Proof.
  destruct v; try apply reads_raise; [|apply reads_wsp_getattr].
  unfold py_getattr. repeat (case_match; [apply reads_ret|]). apply reads_raise.
Qed.

Lemma reads_py_list (v : value) : reads (py_list v).
Proof. destruct v; (apply reads_raise || apply reads_ret). Qed.

Lemma reads_py_first (v : value) : reads (py_first v).
Proof. destruct v as [| | | | |[|x xs]| | | |]; (apply reads_raise || apply reads_ret). Qed.

Lemma reads_dict_update (options : gmap string value) (v : value) :
  reads (dict_update options v).
Proof. destruct v; (apply reads_raise || apply reads_ret). Qed.

Lemma reads_fabber_options (l : loc) : reads (_fabber_options l).
Proof.
  unfold _fabber_options.
  repeat first
    [ apply reads_bind; [|intros ?]
    | apply reads_wsp_getattr | apply reads_wsp_ifnone | apply reads_py_getattr
    | apply reads_py_list | apply reads_py_first | apply reads_dict_update
    | apply reads_ret ].
  all: case_match; apply reads_ret.
Qed.

Lemma _fabber_options_world (l : loc) (w w' : world) (res : outcome (gmap string value)) :
  _fabber_options l w = (w', res) → w = w'.
Proof. intros E. pose proof (reads_fabber_options l w) as Hw. by rewrite E in Hw. Qed.

Lemma with_constants_other (h : list Workspace) (l : loc) (names : list string)
    (options : gmap string value) (k : string) :
  k ∉ names → with_constants h l names options !! k = options !! k.
Proof.
  revert options. induction names as [|opt names IH]; intros options Hk; [done|].
  apply not_elem_of_cons in Hk as [Hne Hk].
  unfold with_constants in *. cbn [foldl]. cbv zeta. rewrite IH by done.
  destruct (is_none (wsp_lookup h l opt)); [done|]. by rewrite lookup_insert_ne.
Qed.

Lemma with_constants_named (h : list Workspace) (l : loc) (names : list string)
    (options : gmap string value) (opt : string) :
  NoDup names → opt ∈ names →
  with_constants h l names options !! opt
  = if is_none (wsp_lookup h l opt) then options !! opt else Some (wsp_lookup h l opt).
Proof.
  revert options. induction names as [|x names IH]; intros options Hnd Hin.
  - by apply elem_of_nil in Hin.
  - apply NoDup_cons in Hnd as [Hx Hnd].
    change (with_constants h l (x :: names) options)
      with (with_constants h l names
              (if is_none (wsp_lookup h l x) then options
               else <[x := wsp_lookup h l x]> options)).
    apply elem_of_cons in Hin as [->|Hin].
    + rewrite with_constants_other by done.
      destruct (is_none (wsp_lookup h l x)); [done|]. by rewrite lookup_insert_eq.
    + rewrite IH by done.
      destruct (is_none (wsp_lookup h l opt)); [|done].
      destruct (is_none (wsp_lookup h l x)); [done|].
      rewrite lookup_insert_ne; [done|]. intros ->. done.
Qed.

Lemma with_constants_keys (h : list Workspace) (l : loc) (names : list string)
    (options : gmap string value) (k : string) :
  is_Some (with_constants h l names options !! k) →
  is_Some (options !! k) ∨ (k ∈ names ∧ wsp_lookup h l k ≠ VNone).
Proof.
  revert options. induction names as [|x names IH]; intros options Hk; [by left|].
  change (with_constants h l (x :: names) options)
    with (with_constants h l names
            (if is_none (wsp_lookup h l x) then options
             else <[x := wsp_lookup h l x]> options)) in Hk.
  apply IH in Hk as [Hk|[Hin Hv]].
  - destruct (is_none (wsp_lookup h l x)) eqn:En; [by left|].
    destruct (decide (x = k)) as [->|Hne].
    + right. split; [apply elem_of_cons; by left|]. intros Hv. by rewrite Hv in En.
    + left. by rewrite lookup_insert_ne in Hk.
  - right. split; [apply elem_of_cons; by right|done].
Qed.

Lemma NoDup_constant_names : NoDup constant_names.
Proof. compute_done. Qed.

Lemma general_options_keys (data mask ti te tau repeats : value) (k : string) :
  is_Some (general_options data mask ti te tau repeats !! k) → k ∈ fixed_keys.
Proof.
  unfold general_options. intros Hk.
  repeat (apply lookup_insert_is_Some in Hk as [<-|[_ Hk]]; [compute_done|]).
  rewrite lookup_empty in Hk. by destruct Hk.
Qed.

Lemma with_constants_keeps (h : list Workspace) (l : loc) (names : list string)
    (options : gmap string value) (k : string) :
  is_Some (options !! k) → is_Some (with_constants h l names options !! k).
Proof.
  revert options. induction names as [|x names IH]; intros options Hk; [done|].
  change (with_constants h l (x :: names) options)
    with (with_constants h l names
            (if is_none (wsp_lookup h l x) then options
             else <[x := wsp_lookup h l x]> options)).
  apply IH. destruct (is_none (wsp_lookup h l x)); [done|].
  apply lookup_insert_is_Some. destruct (decide (x = k)); auto.
Qed.

Lemma general_options_has (data mask ti te tau repeats : value) (k : string) :
  k ∈ fixed_keys → is_Some (general_options data mask ti te tau repeats !! k).
Proof.
  unfold fixed_keys. rewrite !elem_of_cons, elem_of_nil. intros Hk.
  repeat (destruct Hk as [->|Hk]; [by eexists|]). done.
Qed.

Lemma lower_layers_fixed (h : list Workspace) (l : loc) (d : AslImage) (mask : value)
    (repeats : Z) (k : string) :
  k ∉ constant_names →
  lower_layers h l d mask repeats !! k
  = general_options (VAslImage d) mask (VList (VFloat <$> tis d))
      (VList (VFloat <$> tes d)) (VList (VFloat <$> taus d)) (VInt repeats) !! k.
Proof. intros Hk. unfold lower_layers. by apply with_constants_other. Qed.

Lemma lower_layers_constant (h : list Workspace) (l : loc) (d : AslImage) (mask : value)
    (repeats : Z) (opt : string) :
  opt ∈ constant_names →
  lower_layers h l d mask repeats !! opt
  = if is_none (wsp_lookup h l opt) then None else Some (wsp_lookup h l opt).
Proof.
  intros Hin. unfold lower_layers.
  rewrite with_constants_named by (done || apply NoDup_constant_names).
  destruct (is_none (wsp_lookup h l opt)); [|done].
  destruct (general_options _ _ _ _ _ _ !! opt) eqn:E; [|done].
  assert (Hf : opt ∈ fixed_keys) by (eapply general_options_keys; by rewrite E).
  exfalso. revert Hin Hf. unfold constant_names, fixed_keys.
  rewrite !elem_of_cons, !elem_of_nil. intros Hin Hf.
  repeat (destruct Hin as [->|Hin]; [repeat (destruct Hf as [Hf|Hf]; [done|]); done|]).
  done.
Qed.

(** C3, amended.  With no override mapping in the configuration, the
    assembled options hold each of the thirteen fixed keys with its value:
    the three literals, the dataset, the mask, the dataset's three timing
    lists, its first repeat count, the three flags set and an iteration cap
    of 30.  Their keys are exactly these thirteen and those of the four
    biophysical constants that are set in the configuration; so exactly
    the thirteen when none of the four is set. *)
Theorem fabber_options_fixed_keys (l : loc) (w : world) (d : AslImage) (mask : value)
    (repeats : Z) (overrides : gmap string value) :
  valid_config (heap (wstore w)) l d mask repeats overrides →
  wsp_lookup (heap (wstore w)) l "multite_options" = VNone →
  ∃ opts, _fabber_options l w = (w, Returns opts) ∧
    opts !! "method" = Some (VStr "vb") ∧
    opts !! "noise" = Some (VStr "white") ∧
    opts !! "model" = Some (VStr "asl_multite") ∧
    opts !! "data" = Some (VAslImage d) ∧
    opts !! "mask" = Some mask ∧
    opts !! "ti" = Some (VList (VFloat <$> tis d)) ∧
    opts !! "te" = Some (VList (VFloat <$> tes d)) ∧
    opts !! "tau" = Some (VList (VFloat <$> taus d)) ∧
    opts !! "repeats" = Some (VInt repeats) ∧
    head (rpts d) = Some repeats ∧
    opts !! "infertexch" = Some (VBool true) ∧
    opts !! "save-mean" = Some (VBool true) ∧
    opts !! "save-model-fit" = Some (VBool true) ∧
    opts !! "max-iterations" = Some (VInt 30) ∧
    (∀ k, is_Some (opts !! k) ↔
       k ∈ fixed_keys ∨
       (k ∈ constant_names ∧ wsp_lookup (heap (wstore w)) l k ≠ VNone)) ∧
    ((∀ k, k ∈ constant_names → wsp_lookup (heap (wstore w)) l k = VNone) →
     ∀ k, is_Some (opts !! k) ↔ k ∈ fixed_keys).
Proof.
  intros Hcfg Hno. pose proof (cfg_repeats _ _ _ _ _ _ Hcfg) as Hrp.
  pose proof (cfg_overrides _ _ _ _ _ _ Hcfg) as Hov.
  rewrite Hno in Hov. injection Hov as <-.
  eexists. split; [by apply _fabber_options_run|].
  rewrite (left_id_L ∅ (∪)).
  repeat (split; [first [done | by rewrite lower_layers_fixed by compute_done]|]).
  assert (Hkeys : ∀ k, is_Some (lower_layers (heap (wstore w)) l d mask repeats !! k) ↔
            k ∈ fixed_keys ∨
            (k ∈ constant_names ∧ wsp_lookup (heap (wstore w)) l k ≠ VNone)).
  { intros k. split.
    - intros Hk. unfold lower_layers in Hk.
      apply with_constants_keys in Hk as [Hk|Hk]; [left|by right].
      by eapply general_options_keys.
    - intros [Hk|[Hin Hv]].
      + unfold lower_layers. apply with_constants_keeps. by apply general_options_has.
      + rewrite lower_layers_constant by done.
        by destruct (wsp_lookup (heap (wstore w)) l k). }
  split; [exact Hkeys|].
  intros Hunset k. rewrite Hkeys. split; [|by left].
  intros [Hk|[Hin Hv]]; [done|]. by destruct (Hv (Hunset k Hin)).
Qed.

(** C4.  The override mapping is merged last: each of its keys has the
    override's value in the assembled options, and every other key has the
    value that the fixed and conditional layers (lines 39-58) gave it. *)
Theorem fabber_options_override_wins (l : loc) (w : world) (d : AslImage) (mask : value)
    (repeats : Z) (overrides : gmap string value) :
  valid_config (heap (wstore w)) l d mask repeats overrides →
  wsp_lookup (heap (wstore w)) l "multite_options" = VDict overrides →
  ∃ opts lower,
    _fabber_options l w = (w, Returns opts) ∧
    for_fold constant_names
      (general_options (VAslImage d) mask (VList (VFloat <$> tis d))
         (VList (VFloat <$> tes d)) (VList (VFloat <$> taus d)) (VInt repeats))
      (add_constant l) w = (w, Returns lower) ∧
    (∀ k v, overrides !! k = Some v → opts !! k = Some v) ∧
    (∀ k, overrides !! k = None → opts !! k = lower !! k).
Proof.
  intros Hcfg _. eexists _, _. split; [by apply _fabber_options_run|].
  split; [apply for_fold_add_constant|]. split.
  - intros k v Hk. by apply lookup_union_Some_l.
  - intros k Hk. by apply lookup_union_r.
Qed.

(** C5.  For each of [t1], [t1b], [t2], [t2b] that the override mapping
    does not mention: the assembled options lack the key when the constant
    is [None] (or unset) in the configuration, and hold exactly the
    configured value otherwise. *)
Theorem fabber_options_constants (l : loc) (w : world) (d : AslImage) (mask : value)
    (repeats : Z) (overrides : gmap string value) (opt : string) :
  valid_config (heap (wstore w)) l d mask repeats overrides →
  opt ∈ constant_names →
  overrides !! opt = None →
  ∃ opts, _fabber_options l w = (w, Returns opts) ∧
    (wsp_lookup (heap (wstore w)) l opt = VNone → opts !! opt = None) ∧
    (∀ v, wsp_lookup (heap (wstore w)) l opt = v → v ≠ VNone → opts !! opt = Some v).
Proof.
  intros Hcfg Hin Hov. eexists. split; [by apply _fabber_options_run|].
  rewrite lookup_union_r by done. rewrite lower_layers_constant by done.
  split.
  - by intros ->.
  - intros v <- Hv. by destruct (wsp_lookup (heap (wstore w)) l opt).
Qed.

(** ** [fit_multite] *)

Section FitMultite.
Context `{Collaborators}.

Lemma asl_is_var_repeats_run (d : AslImage) (w : world) :
  asl_is_var_repeats (VAslImage d) w = (w, Returns (is_var_repeats d)).
Proof. reflexivity. Qed.

Lemma asl_diff_run (d : AslImage) (w : world) :
  asl_diff (VAslImage d) w = (emit (EvDiff d) w, VAslImage <$> diff d).
Proof. reflexivity. Qed.

Lemma asl_reorder_run (d : AslImage) (o : string) (w : world) :
  asl_reorder (VAslImage d) o w = (emit (EvReorder o d) w, VAslImage <$> reorder o d).
Proof. reflexivity. Qed.

Lemma py_print_run (opts : gmap string value) (w : world) :
  py_print opts w = (emit (EvPrint opts) w, Returns tt).
Proof. reflexivity. Qed.

Lemma py_sub_run (l : loc) (name : string) (w : world) :
  py_sub (VWsp l) name w = wsp_sub l name w.
Proof. reflexivity. Qed.

Ltac fit_run :=
  repeat (first [ run_step | rewrite asl_is_var_repeats_run | rewrite asl_diff_run
                | rewrite asl_reorder_run | rewrite py_print_run | rewrite py_sub_run ];
          cbv beta iota).

(** The run stops at the check of line 69. *)
Lemma fit_multite_var (wsp : loc) (w : world) (d : AslImage) :
  wsp_lookup (heap (wstore w)) wsp "asldata" = VAslImage d →
  is_var_repeats d = true →
  fit_multite wsp w
  = (mkWorld (mkStore (heap (wstore w)) (log (wstore w) ++ [fit_banner])) (trace w),
     Raises var_repeats_error).
Proof.
  intros Hd Hv. unfold fit_multite.
  fit_run. cbn [wstore heap]. rewrite Hd. fit_run. rewrite Hv. fit_run. reflexivity.
Qed.

(** Statements up to the assignment of line 74, for a dataset with fixed
    repeats whose [diff] and [reorder] return. *)
Ltac fit_prefix Hd Hv Hdiff Hre :=
  unfold fit_multite; fit_run; cbn [wstore heap]; rewrite Hd; fit_run;
  rewrite Hv; fit_run; cbn [wstore heap]; rewrite Hd; fit_run;
  rewrite Hdiff; cbn [fmap outcome_fmap]; fit_run;
  try (rewrite Hre; cbn [fmap outcome_fmap]; fit_run).

Lemma fit_multite_diff_raises (wsp : loc) (w : world) (d : AslImage) (e : exn) :
  wsp_lookup (heap (wstore w)) wsp "asldata" = VAslImage d →
  is_var_repeats d = false →
  diff d = Raises e →
  fit_multite wsp w
  = (mkWorld (mkStore (heap (wstore w)) (log (wstore w) ++ [fit_banner]))
       (trace w ++ [EvDiff d]), Raises e).
Proof. intros Hd Hv Hdiff. fit_prefix Hd Hv Hdiff Hd. reflexivity. Qed.

Lemma fit_multite_reorder_raises (wsp : loc) (w : world) (d d1 : AslImage) (e : exn) :
  wsp_lookup (heap (wstore w)) wsp "asldata" = VAslImage d →
  is_var_repeats d = false →
  diff d = Returns d1 →
  reorder "etr" d1 = Raises e →
  fit_multite wsp w
  = (mkWorld (mkStore (heap (wstore w)) (log (wstore w) ++ [fit_banner]))
       ((trace w ++ [EvDiff d]) ++ [EvReorder "etr" d1]), Raises e).
Proof. intros Hd Hv Hdiff Hre. fit_prefix Hd Hv Hdiff Hre. reflexivity. Qed.

Lemma fit_multite_init (wsp : loc) (w : world) (d d1 d2 : AslImage) :
  wsp_lookup (heap (wstore w)) wsp "asldata" = VAslImage d →
  is_var_repeats d = false →
  diff d = Returns d1 →
  reorder "etr" d1 = Returns d2 →
  py_truthy (wsp_lookup (heap (wstore w)) wsp "multite_init") = true →
  fit_multite wsp w
  = ((wsp_sub wsp "init" (after_assignment wsp d d1 d2 w)).1, Raises (NameError "fit_init")).
Proof.
  intros Hd Hv Hdiff Hre Hflag. fit_prefix Hd Hv Hdiff Hre.
  unfold on_heap, emit. cbn [wstore heap log trace].
  rewrite wsp_lookup_set_ne by done. rewrite Hflag.
  unfold call_unbound. fit_run. reflexivity.
Qed.

Lemma fit_multite_no_namespace (wsp : loc) (w : world) (d d1 d2 : AslImage) :
  wsp_lookup (heap (wstore w)) wsp "asldata" = VAslImage d →
  is_var_repeats d = false →
  diff d = Returns d1 →
  reorder "etr" d1 = Returns d2 →
  py_truthy (wsp_lookup (heap (wstore w)) wsp "multite_init") = false →
  (∀ q, wsp_lookup (heap (wstore w)) wsp "multite" ≠ VWsp q) →
  fit_multite wsp w = (after_assignment wsp d d1 d2 w, Raises (AttributeError "asldata")).
Proof.
  intros Hd Hv Hdiff Hre Hflag Hmt. fit_prefix Hd Hv Hdiff Hre.
  unfold on_heap, emit. cbn [wstore heap log trace].
  rewrite wsp_lookup_set_ne by done. rewrite Hflag. fit_run.
  cbn [wstore heap log trace]. rewrite wsp_lookup_set_ne by done.
  destruct (wsp_lookup (heap (wstore w)) wsp "multite"); try reflexivity.
  by edestruct Hmt.
Qed.

(** Past the flag, with [wsp.multite] a workspace [q]: the options are
    assembled from [q]. *)
Lemma fit_multite_options (wsp q : loc) (w : world) (d d1 d2 : AslImage) :
  wsp_lookup (heap (wstore w)) wsp "asldata" = VAslImage d →
  is_var_repeats d = false →
  diff d = Returns d1 →
  reorder "etr" d1 = Returns d2 →
  py_truthy (wsp_lookup (heap (wstore w)) wsp "multite_init") = false →
  wsp_lookup (heap (wstore w)) wsp "multite" = VWsp q →
  fit_multite wsp w
  = match _fabber_options q (after_assignment wsp d d1 d2 w) with
    | (_, Returns opts) =>
        (_run_fabber (length (heap (wstore w))) opts fabber_desc ≫= λ _, log_write fit_done)
          (before_fabber q opts (after_assignment wsp d d1 d2 w))
    | (_, Raises e) => (after_assignment wsp d d1 d2 w, Raises e)
    end.
Proof.
  intros Hd Hv Hdiff Hre Hflag Hmt. fit_prefix Hd Hv Hdiff Hre.
  unfold on_heap, emit. cbn [wstore heap log trace].
  rewrite wsp_lookup_set_ne by done. rewrite Hflag. fit_run.
  cbn [wstore heap log trace]. rewrite wsp_lookup_set_ne by done. rewrite Hmt. fit_run.
  unfold after_assignment, before_fabber, fit_banner, fit_done, fabber_desc.
  match goal with
  | |- context [_fabber_options q ?w2] =>
      destruct (_fabber_options q w2) as [w3 [opts|e]] eqn:Eo;
      destruct (_fabber_options_world _ _ _ _ Eo)
  end; [|reflexivity].
  fit_run. unfold emit. cbn [wstore heap log trace].
  rewrite wsp_lookup_set_ne by done. rewrite Hmt. fit_run.
  unfold on_heap. cbn [wstore heap log trace].
  rewrite length_alter. reflexivity.
Qed.

Lemma own_attr_alter_ne (h : list Workspace) (f : Workspace → Workspace) (l l' : loc)
    (k : string) :
  l ≠ l' → own_attr (alter f l h) l' k = own_attr h l' k.
Proof. intros Hne. unfold own_attr. by rewrite list_lookup_alter_ne. Qed.

(** [_run_fabber] changes no workspace but its target. *)
Lemma _run_fabber_heap (fs : loc) (opts : gmap string value) (desc : string) (w : world)
    (n : Workspace) :
  heap (wstore w) !! fs = Some n →
  ∃ f, heap (wstore (_run_fabber fs opts desc w).1) = alter f fs (heap (wstore w)).
Proof.
  intros Hn. destruct (fabber opts) as [lines [result|e]] eqn:Ef.
  - exists (after_fabber result). by rewrite (_run_fabber_run _ _ _ _ _ _ _ Ef Hn).
  - exists id. rewrite (_run_fabber_raises _ _ _ _ _ _ Ef). simpl.
    by rewrite list_alter_id.
Qed.

Lemma then_log_heap {A : Type} (m : M A) (s : string) (w : world) :
  heap (wstore ((m ≫= λ _, log_write s) w).1) = heap (wstore (m w).1).
Proof. rewrite bind_run. by destruct (m w) as [w1 [a|e]]. Qed.

Lemma then_log_trace {A : Type} (m : M A) (s : string) (w : world) :
  trace ((m ≫= λ _, log_write s) w).1 = trace (m w).1.
Proof. rewrite bind_run. by destruct (m w) as [w1 [a|e]]. Qed.

(** A run that returns has passed the check and transformed the data. *)
Lemma fit_multite_returns_inv (wsp : loc) (w w' : world) :
  fit_multite wsp w = (w', Returns tt) →
  ∃ d d1 d2,
    wsp_lookup (heap (wstore w)) wsp "asldata" = VAslImage d ∧
    is_var_repeats d = false ∧
    diff d = Returns d1 ∧
    reorder "etr" d1 = Returns d2.
Proof.
  intros Hrun.
  destruct (wsp_lookup (heap (wstore w)) wsp "asldata") as [| | | | | | |d| |] eqn:Hd;
    try (revert Hrun; unfold fit_multite; fit_run; cbn [wstore heap]; rewrite Hd;
         by fit_run).
  destruct (is_var_repeats d) eqn:Hv.
  { by rewrite (fit_multite_var _ _ _ Hd Hv) in Hrun. }
  destruct (diff d) as [d1|e] eqn:Hdiff.
  2:{ by rewrite (fit_multite_diff_raises _ _ _ _ Hd Hv Hdiff) in Hrun. }
  destruct (reorder "etr" d1) as [d2|e] eqn:Hre.
  2:{ by rewrite (fit_multite_reorder_raises _ _ _ _ _ Hd Hv Hdiff Hre) in Hrun. }
  by exists d, d1, d2.
Qed.

(** Past line 74, the only attributes the run gives to workspaces that
    existed before are [init] and [finalstep]. *)
Lemma fit_multite_frame (wsp : loc) (w : world) (d d1 d2 : AslImage) (l : loc) (k : string) :
  wsp_lookup (heap (wstore w)) wsp "asldata" = VAslImage d →
  is_var_repeats d = false →
  diff d = Returns d1 →
  reorder "etr" d1 = Returns d2 →
  l < length (heap (wstore w)) →
  k ≠ "init" → k ≠ "finalstep" →
  own_attr (heap (wstore (fit_multite wsp w).1)) l k
  = own_attr (alter (set_attr "asldata" (VAslImage d2)) wsp (heap (wstore w))) l k.
Proof.
  intros Hd Hv Hdiff Hre Hl Hk1 Hk2.
  set (h2 := alter (set_attr "asldata" (VAslImage d2)) wsp (heap (wstore w))).
  assert (Hl2 : l < length h2) by (unfold h2; by rewrite length_alter).
  destruct (py_truthy (wsp_lookup (heap (wstore w)) wsp "multite_init")) eqn:Hflag.
  { rewrite (fit_multite_init _ _ _ _ _ Hd Hv Hdiff Hre Hflag). simpl. fold h2.
    rewrite own_attr_set_ne by auto. by apply own_attr_app. }
  destruct (wsp_lookup (heap (wstore w)) wsp "multite") as [| | | | | | | | |q] eqn:Hmt;
    try (rewrite (fit_multite_no_namespace _ _ _ _ _ Hd Hv Hdiff Hre Hflag);
         [done|by rewrite Hmt]).
  rewrite (fit_multite_options _ _ _ _ _ _ Hd Hv Hdiff Hre Hflag Hmt).
  destruct (_fabber_options q (after_assignment wsp d d1 d2 w)) as [w3 [opts|e]]; [|done].
  rewrite then_log_heap.
  set (wb := before_fabber q opts (after_assignment wsp d d1 d2 w)).
  assert (Hfs : is_Some (heap (wstore wb) !! length (heap (wstore w)))).
  { apply lookup_lt_is_Some. unfold wb. simpl.
    rewrite length_alter, length_app, length_alter. simpl. lia. }
  destruct Hfs as [n Hn].
  destruct (_run_fabber_heap _ opts fabber_desc _ _ Hn) as [f ->].
  rewrite own_attr_alter_ne by lia.
  unfold wb. simpl. fold h2.
  rewrite own_attr_set_ne by auto. by apply own_attr_app.
Qed.

(** With the flag unset, the run gives no [init] attribute either: of the
    workspaces that existed before, only [finalstep] is new. *)
Lemma fit_multite_skips_init (wsp : loc) (w : world) (d d1 d2 : AslImage) (l : loc)
    (k : string) :
  wsp_lookup (heap (wstore w)) wsp "asldata" = VAslImage d →
  is_var_repeats d = false →
  diff d = Returns d1 →
  reorder "etr" d1 = Returns d2 →
  py_truthy (wsp_lookup (heap (wstore w)) wsp "multite_init") = false →
  l < length (heap (wstore w)) →
  k ≠ "finalstep" →
  own_attr (heap (wstore (fit_multite wsp w).1)) l k
  = own_attr (alter (set_attr "asldata" (VAslImage d2)) wsp (heap (wstore w))) l k.
Proof.
  intros Hd Hv Hdiff Hre Hflag Hl Hk.
  set (h2 := alter (set_attr "asldata" (VAslImage d2)) wsp (heap (wstore w))).
  assert (Hl2 : l < length h2) by (unfold h2; by rewrite length_alter).
  destruct (wsp_lookup (heap (wstore w)) wsp "multite") as [| | | | | | | | |q] eqn:Hmt;
    try (rewrite (fit_multite_no_namespace _ _ _ _ _ Hd Hv Hdiff Hre Hflag);
         [done|by rewrite Hmt]).
  rewrite (fit_multite_options _ _ _ _ _ _ Hd Hv Hdiff Hre Hflag Hmt).
  destruct (_fabber_options q (after_assignment wsp d d1 d2 w)) as [w3 [opts|e]]; [|done].
  rewrite then_log_heap.
  set (wb := before_fabber q opts (after_assignment wsp d d1 d2 w)).
  assert (Hfs : is_Some (heap (wstore wb) !! length (heap (wstore w)))).
  { apply lookup_lt_is_Some. unfold wb. simpl.
    rewrite length_alter, length_app, length_alter. simpl. lia. }
  destruct Hfs as [n Hn].
  destruct (_run_fabber_heap _ opts fabber_desc _ _ Hn) as [f ->].
  rewrite own_attr_alter_ne by lia.
  unfold wb. simpl. fold h2.
  rewrite own_attr_set_ne by auto. by apply own_attr_app.
Qed.

Lemma fit_multite_trace (wsp : loc) (w : world) (d d1 d2 : AslImage) :
  wsp_lookup (heap (wstore w)) wsp "asldata" = VAslImage d →
  is_var_repeats d = false →
  diff d = Returns d1 →
  reorder "etr" d1 = Returns d2 →
  trace (fit_multite wsp w).1
  = trace w ++ EvDiff d :: EvReorder "etr" d1 :: engine_calls wsp d d1 d2 w.
Proof.
  intros Hd Hv Hdiff Hre. unfold engine_calls.
  destruct (py_truthy (wsp_lookup (heap (wstore w)) wsp "multite_init")) eqn:Hflag.
  { rewrite (fit_multite_init _ _ _ _ _ Hd Hv Hdiff Hre Hflag). simpl.
    by rewrite <- app_assoc. }
  destruct (wsp_lookup (heap (wstore w)) wsp "multite") as [| | | | | | | | |q] eqn:Hmt;
    try (rewrite (fit_multite_no_namespace _ _ _ _ _ Hd Hv Hdiff Hre Hflag);
         [|by rewrite Hmt]; simpl; by rewrite <- app_assoc).
  rewrite (fit_multite_options _ _ _ _ _ _ Hd Hv Hdiff Hre Hflag Hmt).
  destruct (_fabber_options q (after_assignment wsp d d1 d2 w)) as [w3 [opts|e]] eqn:Eo;
    destruct (_fabber_options_world _ _ _ _ Eo); simpl.
  - rewrite then_log_trace, _run_fabber_trace. simpl. by rewrite <- !app_assoc.
  - by rewrite <- app_assoc.
Qed.

(** C1.  When the dataset reports variable repeats, [fit_multite] raises
    the [ValueError] having done nothing but write its first log line: no
    workspace is changed and no collaborator is called, so no differencing,
    reordering, initialisation, option assembly or engine call has taken
    place.  When the dataset reports fixed repeats the check does not
    raise: the run goes on to call the dataset's [diff]. *)
Theorem fit_multite_checks_repeats (wsp : loc) (w : world) (d : AslImage) :
  wsp_lookup (heap (wstore w)) wsp "asldata" = VAslImage d →
  (is_var_repeats d = true →
   fit_multite wsp w
   = (mkWorld (mkStore (heap (wstore w)) (log (wstore w) ++ [fit_banner])) (trace w),
      Raises var_repeats_error)) ∧
  (is_var_repeats d = false →
   ∃ evs, trace (fit_multite wsp w).1 = trace w ++ EvDiff d :: evs).
Proof.
  intros Hd. split; intros Hv; [by apply (fit_multite_var wsp w d)|].
  destruct (diff d) as [d1|e] eqn:Hdiff.
  2:{ rewrite (fit_multite_diff_raises _ _ _ _ Hd Hv Hdiff). by exists []. }
  destruct (reorder "etr" d1) as [d2|e] eqn:Hre.
  2:{ rewrite (fit_multite_reorder_raises _ _ _ _ _ Hd Hv Hdiff Hre).
      exists [EvReorder "etr" d1]. simpl. by rewrite <- app_assoc. }
  rewrite (fit_multite_trace _ _ _ _ _ Hd Hv Hdiff Hre). eauto.
Qed.

(** C2, amended.  For a dataset with fixed repeats whose [diff] and
    [reorder] return, whatever the configuration: the run calls [diff] on
    the dataset, then [reorder] with ["etr"] on the result, and when it
    ends the workspace's [asldata] is the reordered difference.  In a
    workspace that is its own [multite] namespace, whose [multite_options]
    are unset or a dictionary without a ["data"] key: whenever the engine
    is called, the options' ["data"] is the reordered difference; and with
    the initialisation flag unset and a configuration from which the
    options can be assembled, the engine is called. *)
Theorem fit_multite_engine_data (wsp : loc) (w : world) (d d1 d2 : AslImage)
    (n : Workspace) :
  wsp_lookup (heap (wstore w)) wsp "asldata" = VAslImage d →
  is_var_repeats d = false →
  diff d = Returns d1 →
  reorder "etr" d1 = Returns d2 →
  heap (wstore w) !! wsp = Some n →
  ∃ evs,
    trace (fit_multite wsp w).1 = trace w ++ EvDiff d :: EvReorder "etr" d1 :: evs ∧
    wsp_lookup (heap (wstore (fit_multite wsp w).1)) wsp "asldata" = VAslImage d2 ∧
    (wsp_lookup (heap (wstore w)) wsp "multite" = VWsp wsp →
     ∀ ov,
       overrides_of (wsp_lookup (heap (wstore w)) wsp "multite_options") = Some ov →
       ov !! "data" = None →
       (∀ opts, EvFabber opts ∈ evs → opts !! "data" = Some (VAslImage d2)) ∧
       (py_truthy (wsp_lookup (heap (wstore w)) wsp "multite_init") = false →
        (∃ mask repeats,
           valid_config (heap (wstore (after_assignment wsp d d1 d2 w))) wsp d2
             mask repeats ov) →
        ∃ opts, evs = [EvPrint opts; EvFabber opts])).
Proof.
  intros Hd Hv Hdiff Hre Hn.
  assert (Hl : wsp < length (heap (wstore w))) by (by eapply lookup_lt_Some).
  exists (engine_calls wsp d d1 d2 w).
  split; [by apply fit_multite_trace|]. split.
  { apply wsp_lookup_own.
    rewrite (fit_multite_frame wsp w d d1 d2 wsp "asldata" Hd Hv Hdiff Hre Hl) by done.
    by apply own_attr_set_eq. }
  intros Hmt ov Hov Hnodata. unfold engine_calls. rewrite Hmt.
  assert (Hd2 : wsp_lookup (heap (wstore (after_assignment wsp d d1 d2 w))) wsp "asldata"
                = VAslImage d2) by (by apply wsp_lookup_set_eq).
  split.
  - intros opts Hin.
    destruct (py_truthy _); [by apply elem_of_nil in Hin|].
    destruct (_fabber_options wsp (after_assignment wsp d d1 d2 w)) as [w3 [o|e]] eqn:Eo;
      simpl in Hin; [|by apply elem_of_nil in Hin].
    assert (o = opts) as ->.
    { apply elem_of_cons in Hin as [[=]|Hin].
      apply elem_of_cons in Hin as [[=]|Hin]; [done|by apply elem_of_nil in Hin]. }
    destruct (_fabber_options_inv _ _ _ _ _ Hd2 Eo) as [_ Hinv].
    destruct (Hinv opts eq_refl) as (mask & repeats & ov' & Hcfg & ->).
    assert (ov' = ov) as ->.
    { pose proof (cfg_overrides _ _ _ _ _ _ Hcfg) as Ho. simpl in Ho.
      rewrite wsp_lookup_set_ne in Ho by done. congruence. }
    rewrite lookup_union_r by done.
    by rewrite lower_layers_fixed by compute_done.
  - intros -> (mask & repeats & Hcfg).
    rewrite (_fabber_options_run _ _ _ _ _ _ Hcfg). simpl. eauto.
Qed.

(** C8 at its failing inputs.  With the initialisation flag set, the run
    creates the [init] workspace and then stops with [NameError]: the
    module binds no [fit_init].  Nothing is fitted, [init] holds no
    [initial_mvn], and the engine is never called. *)
Theorem fit_multite_init_unbound (wsp : loc) (w : world) (d d1 d2 : AslImage)
    (n : Workspace) :
  wsp_lookup (heap (wstore w)) wsp "asldata" = VAslImage d →
  is_var_repeats d = false →
  diff d = Returns d1 →
  reorder "etr" d1 = Returns d2 →
  heap (wstore w) !! wsp = Some n →
  py_truthy (wsp_lookup (heap (wstore w)) wsp "multite_init") = true →
  let run := fit_multite wsp w in
  run.2 = Raises (NameError "fit_init") ∧
  wsp_lookup (heap (wstore run.1)) wsp "init" = VWsp (length (heap (wstore w))) ∧
  own_attr (heap (wstore run.1)) (length (heap (wstore w))) "initial_mvn" = None ∧
  trace run.1 = trace w ++ [EvDiff d; EvReorder "etr" d1].
Proof.
  intros Hd Hv Hdiff Hre Hn Hflag run. subst run.
  assert (Hl : wsp < length (heap (wstore w))) by (by eapply lookup_lt_Some).
  rewrite (fit_multite_init _ _ _ _ _ Hd Hv Hdiff Hre Hflag). simpl.
  rewrite !length_alter.
  split; [done|]. split; [|split].
  - apply wsp_lookup_set_eq. rewrite length_app, length_alter. lia.
  - rewrite own_attr_alter_ne by lia. unfold own_attr.
    rewrite lookup_app_r by (rewrite length_alter; lia).
    rewrite length_alter, Nat.sub_diag. done.
  - by rewrite <- app_assoc.
Qed.

(** C10.  When [fit_multite] returns, the workspace's [asldata] attribute
    is the reordered difference of the dataset it held before. *)
Theorem fit_multite_overwrites_asldata (wsp : loc) (w w' : world) (d : AslImage)
    (n : Workspace) :
  wsp_lookup (heap (wstore w)) wsp "asldata" = VAslImage d →
  heap (wstore w) !! wsp = Some n →
  fit_multite wsp w = (w', Returns tt) →
  ∃ d1 d2,
    diff d = Returns d1 ∧
    reorder "etr" d1 = Returns d2 ∧
    wsp_lookup (heap (wstore w')) wsp "asldata" = VAslImage d2.
Proof.
  intros Hd Hn Hrun.
  destruct (fit_multite_returns_inv _ _ _ Hrun) as (d' & d1 & d2 & Hd' & Hv & Hdiff & Hre).
  assert (d' = d) as -> by congruence.
  assert (Hl : wsp < length (heap (wstore w))) by (by eapply lookup_lt_Some).
  exists d1, d2. split; [done|]. split; [done|].
  apply wsp_lookup_own.
  pose proof (fit_multite_frame wsp w d d1 d2 wsp "asldata" Hd Hv Hdiff Hre Hl) as Hf.
  rewrite Hrun in Hf. simpl in Hf. rewrite Hf by done.
  by apply own_attr_set_eq.
Qed.

End FitMultite.

(** ** [model_multite] *)

Section ModelMultite.
Context `{Collaborators}.

Lemma call_routine_run (ev : event) (f : store → store * outcome unit) (w : world) :
  call_routine ev f w = (mkWorld (f (wstore w)).1 (trace w ++ [ev]), (f (wstore w)).2).
Proof. unfold call_routine. by destruct (f (wstore w)). Qed.

Lemma read_perfusion_run (wsp : loc) (w : world) :
  read_perfusion wsp w
  = (w, (read_perfusion wsp w).2).
Proof.
  assert (Hr : reads (read_perfusion wsp)).
  { unfold read_perfusion.
    apply reads_bind; [apply reads_wsp_getattr|intros out].
    apply reads_bind; [apply reads_py_getattr|intros native].
    apply reads_py_getattr. }
  specialize (Hr w). destruct (read_perfusion wsp w) as [w' r]. simpl in *. by subst.
Qed.

Lemma bind_assoc {A B C : Type} (m : M A) (f : A → M B) (g : B → M C) (w : world) :
  ((m ≫= f) ≫= g) w = (m ≫= λ a, f a ≫= g) w.
Proof. rewrite !bind_run. by destruct (m w) as [w1 [a|e]]. Qed.

Lemma read_perfusion_bind {B : Type} (wsp : loc) (k : value → M B) (w : world) :
  (out ← wsp_getattr wsp "output";
   native ← py_getattr out "native";
   perfusion ← py_getattr native "perfusion";
   k perfusion) w
  = (read_perfusion wsp ≫= k) w.
Proof.
  unfold read_perfusion. rewrite bind_assoc.
  rewrite (bind_run (wsp_getattr wsp "output")).
  rewrite (bind_run (wsp_getattr wsp "output")).
  rewrite wsp_getattr_run. cbv beta iota. by rewrite bind_assoc.
Qed.

(** C7.  On a workspace, [model_multite] performs the four steps in order,
    each once: it creates the [multite] workspace and runs [fit_multite] on
    it, creates the [output] workspace and calls the native-space output
    routine on [(output, multite)], calls the re-registration routine with
    [wsp.output.native.perfusion], and calls the transformed-space output
    routine on [wsp.output].  An exception of any step, or of reading the
    perfusion map, ends the run with that exception and without the later
    steps; otherwise the run returns [None]. *)
Theorem model_multite_four_steps (wsp : loc) (w : world) (n : Workspace) :
  heap (wstore w) !! wsp = Some n →
  four_steps wsp w (model_multite wsp w).
Proof.
  intros Hn.
  assert (Hl : wsp < length (heap (wstore w))) by (by eapply lookup_lt_Some).
  unfold model_multite. run. unfold on_heap. cbn [wstore heap log trace].
  rewrite wsp_lookup_set_eq by (rewrite length_app; lia). run.
  set (mt := length (heap (wstore w))).
  match goal with
  | |- context [fit_multite mt ?w1] =>
      change w1 with (wsp_sub wsp "multite" w).1;
      destruct (fit_multite mt (wsp_sub wsp "multite" w).1) as [w2 [[]|e]] eqn:Efit
  end; [|by apply fit_aborts].
  (* the fit returned: [wsp] still names [mt] as its [multite] *)
  destruct (fit_multite_returns_inv _ _ _ Efit) as (d & d1 & d2 & Hd & Hv & Hdiff & Hre).
  assert (Hl1 : wsp < length (heap (wstore (wsp_sub wsp "multite" w).1))).
  { simpl. rewrite length_alter, length_app. lia. }
  assert (Hmt : own_attr (heap (wstore w2)) wsp "multite" = Some (VWsp mt)).
  { pose proof (fit_multite_frame mt _ d d1 d2 wsp "multite" Hd Hv Hdiff Hre Hl1) as Hf.
    rewrite Efit in Hf. simpl in Hf. rewrite Hf by done.
    rewrite own_attr_set_ne by (right; done).
    apply own_attr_set_eq. rewrite length_app. lia. }
  assert (Hl2 : wsp < length (heap (wstore w2))).
  { unfold own_attr in Hmt. destruct (heap (wstore w2) !! wsp) eqn:E; [|done].
    by eapply lookup_lt_Some. }
  run. unfold on_heap. cbn [wstore heap log trace].
  rewrite wsp_lookup_set_eq by (rewrite length_app; lia).
  rewrite wsp_lookup_set_ne by done.
  rewrite (wsp_lookup_own _ wsp "multite" (VWsp mt)) by (by rewrite own_attr_app).
  rewrite call_routine_run. cbn [wstore heap log trace].
  set (out := length (heap (wstore w2))).
  match goal with
  | |- context [output_native (VWsp out) (VWsp mt) ?s3] =>
      change s3 with (wstore (wsp_sub wsp "output" w2).1);
      destruct (output_native (VWsp out) (VWsp mt) (wstore (wsp_sub wsp "output" w2).1))
        as [s4 [[]|e]] eqn:Enat
  end; cbn [fst snd].
  2:{ by apply (native_output_aborts wsp w w2 s4 e). }
  rewrite read_perfusion_bind, bind_run.
  match goal with
  | |- context [read_perfusion wsp ?w4] =>
      pose proof (read_perfusion_run wsp w4) as Hrp;
      destruct (read_perfusion wsp w4) as [w4' [perfusion|e]] eqn:Eperf;
      apply (f_equal fst) in Hrp; cbn [fst] in Hrp; subst w4'
  end.
  2:{ by apply (perfusion_missing wsp w w2 s4 e). }
  rewrite bind_run, call_routine_run. cbn [wstore heap log trace].
  destruct (redo_reg (VWsp wsp) perfusion s4) as [s5 [[]|e]] eqn:Ereg; cbn [fst snd].
  2:{ by apply (reregistration_aborts wsp w w2 s4 s5 perfusion e). }
  run. cbn [wstore heap log trace]. rewrite call_routine_run.
  cbn [wstore heap log trace].
  destruct (output_trans (wsp_lookup (heap s5) wsp "output") s5) as [s6 r] eqn:Etr.
  cbn [fst snd].
  pose proof (transformed_output_ends wsp w w2 s4 s5 s6 perfusion r Efit Enat Eperf
                Ereg Etr) as Hend.
  destruct r as [[]|e]; exact Hend.
Qed.

End ModelMultite.

(** * The claims on the concrete pipeline *)

Section Witnesses.
Import Demo.

Ltac by_eval := vm_compute; reflexivity.

Lemma world0_valid (extra overrides : gmap string value) :
  wsp_lookup (heap (wstore (world0 extra asl0))) 0 "asldata" = VAslImage asl0 →
  wsp_lookup (heap (wstore (world0 extra asl0))) 0 "rois" = VWsp 1 →
  overrides_of (wsp_lookup (heap (wstore (world0 extra asl0))) 0 "multite_options")
    = Some overrides →
  valid_config (heap (wstore (world0 extra asl0))) 0 asl0 (VImage "mask") 2 overrides.
Proof.
  intros Hd Hr Ho. constructor; [done| |done|done].
  exists 1. split; [done|]. reflexivity.
Defined.

Lemma run_fabber_writes_result_witness :
  wsp_lookup
    (heap (wstore (_run_fabber (H := demo) 0 ∅ "fit" (world0 plain asl0)).1)) 0 "mean_ftiss"
  = VImage "mean_ftiss" ∧
  (∃ n', heap (wstore (_run_fabber (H := demo) 0 ∅ "fit" (world0 plain asl0)).1) !! 0 = Some n' ∧
         saved n' = [("logfile", VStr "/tmp/log.txt", SaveStr)]).
Proof.
  destruct (run_fabber_writes_result (H := demo) 0 ∅ demo_result "fit" ["fabber: 100%"]
              (world0 plain asl0) (top plain asl0) eq_refl eq_refl) as (Hw & Hs & _).
  split; [by apply Hw|exact Hs].
Defined.

Lemma run_fabber_missing_logfile_witness :
  (_run_fabber (H := demo_no_logfile) 0 ∅ "fit" (world0 plain asl0)).2
  = Raises (KeyError "logfile") ∧
  wsp_lookup
    (heap (wstore (_run_fabber (H := demo_no_logfile) 0 ∅ "fit" (world0 plain asl0)).1))
    0 "mean_ftiss"
  = VImage "mean_ftiss".
Proof.
  destruct (run_fabber_missing_logfile (H := demo_no_logfile) 0 ∅
              (<["mean_ftiss" := VImage "mean_ftiss"]> ∅) "fit" []
              (world0 plain asl0) (top plain asl0) eq_refl eq_refl eq_refl) as (Hr & Hw & _).
  split; [exact Hr|by apply Hw].
Defined.

(** C3 as stated fails where one of the constants is set: with [t1] in
    the configuration and no override mapping, the options hold a
    fourteenth key. *)
Lemma fixed_keys_not_exact :
  wsp_lookup (heap (wstore (world0 with_t1 asl0))) 0 "multite_options" = VNone ∧
  ∃ opts, _fabber_options 0 (world0 with_t1 asl0) = (world0 with_t1 asl0, Returns opts) ∧
    opts !! "t1" = Some (VFloat 1.3) ∧
    ("t1" ∉ fixed_keys) ∧
    size opts = 14.
Proof.
  split; [vm_compute; reflexivity|].
  eexists. split; [vm_compute; reflexivity|].
  split; [vm_compute; reflexivity|]. split; [compute_done|vm_compute; reflexivity].
Qed.

Lemma fabber_options_fixed_keys_witness :
  ∃ opts, _fabber_options 0 (world0 with_t1 asl0) = (world0 with_t1 asl0, Returns opts) ∧
    opts !! "model" = Some (VStr "asl_multite") ∧
    opts !! "repeats" = Some (VInt 2) ∧
    opts !! "max-iterations" = Some (VInt 30).
Proof.
  destruct (fabber_options_fixed_keys 0 (world0 with_t1 asl0) asl0 (VImage "mask") 2 ∅
              (world0_valid with_t1 ∅ eq_refl eq_refl eq_refl) eq_refl)
    as (opts & Hrun & _ & _ & Hmodel & _ & _ & _ & _ & _ & Hrep & _ & _ & _ & _ & Hmax & _).
  by exists opts.
Defined.

Lemma fabber_options_override_wins_witness :
  ∃ opts, _fabber_options 0 (world0 with_more_iterations asl0)
          = (world0 with_more_iterations asl0, Returns opts) ∧
    opts !! "max-iterations" = Some (VInt 50) ∧
    opts !! "method" = Some (VStr "vb").
Proof.
  destruct (fabber_options_override_wins 0 (world0 with_more_iterations asl0) asl0
              (VImage "mask") 2 more_iterations
              (world0_valid with_more_iterations more_iterations eq_refl eq_refl eq_refl)
              eq_refl)
    as (opts & lower & Hrun & Hlower & Hov & Hrest).
  exists opts. split; [exact Hrun|]. split; [by apply Hov|].
  rewrite Hrest by reflexivity.
  rewrite for_fold_add_constant in Hlower. injection Hlower as <-. reflexivity.
Defined.

Lemma fabber_options_constants_witness :
  ∃ opts, _fabber_options 0 (world0 with_t1 asl0) = (world0 with_t1 asl0, Returns opts) ∧
    opts !! "t1" = Some (VFloat 1.3) ∧
    opts !! "t2" = None.
Proof.
  destruct (fabber_options_constants 0 (world0 with_t1 asl0) asl0 (VImage "mask") 2 ∅ "t1"
              (world0_valid with_t1 ∅ eq_refl eq_refl eq_refl)
              ltac:(compute_done) eq_refl)
    as (opts & Hrun & _ & Hset).
  destruct (fabber_options_constants 0 (world0 with_t1 asl0) asl0 (VImage "mask") 2 ∅ "t2"
              (world0_valid with_t1 ∅ eq_refl eq_refl eq_refl)
              ltac:(compute_done) eq_refl)
    as (opts' & Hrun' & Hunset & _).
  assert (opts' = opts) as -> by congruence.
  exists opts. split; [exact Hrun|]. split; [by apply Hset|by apply Hunset].
Defined.

Lemma fit_multite_checks_repeats_witness :
  fit_multite (H := demo) 0 (world0 plain asl_var)
  = (mkWorld (mkStore [top plain asl_var; rois0] [fit_banner]) [], Raises var_repeats_error) ∧
  ∃ evs, trace (fit_multite (H := demo) 0 (world0 plain asl0)).1 = EvDiff asl0 :: evs.
Proof.
  split.
  - apply (fit_multite_checks_repeats (H := demo) 0 (world0 plain asl_var) asl_var ltac:(by_eval)).
    reflexivity.
  - apply (fit_multite_checks_repeats (H := demo) 0 (world0 plain asl0) asl0 ltac:(by_eval)).
    reflexivity.
Defined.

Lemma staged_valid :
  valid_config (heap (wstore (after_assignment 2 asl0 asl0_diff asl0_etr (staged plain asl0))))
    2 asl0_etr (VImage "mask") 2 ∅.
Proof.
  constructor; [reflexivity| |reflexivity|reflexivity].
  exists 1. split; reflexivity.
Defined.

Lemma fit_multite_engine_data_witness :
  wsp_lookup (heap (wstore (fit_multite (H := demo) 2 (staged plain asl0)).1)) 2 "asldata"
  = VAslImage asl0_etr ∧
  ∃ opts,
    trace (fit_multite (H := demo) 2 (staged plain asl0)).1
    = [EvDiff asl0; EvReorder "etr" asl0_diff; EvPrint opts; EvFabber opts] ∧
    opts !! "data" = Some (VAslImage asl0_etr).
Proof.
  destruct (fit_multite_engine_data (H := demo) 2 (staged plain asl0) asl0 asl0_diff
              asl0_etr (new_child [top plain asl0; rois0] 0 "multite")
              ltac:(by_eval) ltac:(by_eval) ltac:(by_eval) ltac:(by_eval) ltac:(by_eval))
    as (evs & Htrace & Hstored & Hengine).
  split; [exact Hstored|].
  destruct (Hengine ltac:(by_eval) plain ltac:(by_eval) ltac:(by_eval))
    as (Hdata & Hcalled).
  destruct (Hcalled eq_refl) as [opts ->].
  { exists (VImage "mask"), 2%Z. exact staged_valid. }
  exists opts. split; [exact Htrace|].
  apply Hdata. apply elem_of_cons. right. apply elem_of_cons. by left.
Defined.

(** C2 as stated fails where the override mapping names ["data"]: the
    engine is then given the override's value, not the transformed
    dataset. *)
Lemma engine_data_overridden :
  wsp_lookup (heap (wstore (staged with_other_data asl0))) 2 "asldata" = VAslImage asl0 ∧
  is_var_repeats (Collaborators := demo) asl0 = false ∧
  diff (Collaborators := demo) asl0 = Returns asl0_diff ∧
  reorder (Collaborators := demo) "etr" asl0_diff = Returns asl0_etr ∧
  ∃ opts,
    last (trace (fit_multite (H := demo) 2 (staged with_other_data asl0)).1)
    = Some (EvFabber opts) ∧
    opts !! "data" = Some (VStr "other.nii.gz") ∧
    opts !! "data" ≠ Some (VAslImage asl0_etr).
Proof.
  repeat (split; [reflexivity|]).
  eexists. split; [vm_compute; reflexivity|].
  split; [reflexivity|]. intros Heq. vm_compute in Heq. discriminate Heq.
Qed.

Lemma fit_multite_init_unbound_witness :
  (fit_multite (H := demo) 2 (staged with_init asl0)).2 = Raises (NameError "fit_init") ∧
  wsp_lookup (heap (wstore (fit_multite (H := demo) 2 (staged with_init asl0)).1)) 2 "init"
  = VWsp 3 ∧
  own_attr (heap (wstore (fit_multite (H := demo) 2 (staged with_init asl0)).1)) 3
    "initial_mvn" = None ∧
  trace (fit_multite (H := demo) 2 (staged with_init asl0)).1
  = [EvDiff asl0; EvReorder "etr" asl0_diff].
Proof.
  exact (fit_multite_init_unbound (H := demo) 2 (staged with_init asl0) asl0 asl0_diff
           asl0_etr (new_child [top with_init asl0; rois0] 0 "multite")
           ltac:(by_eval) ltac:(by_eval) ltac:(by_eval) ltac:(by_eval) ltac:(by_eval) ltac:(by_eval)).
Defined.

Lemma fit_multite_overwrites_asldata_witness :
  ∃ d1 d2,
    diff (Collaborators := demo) asl0 = Returns d1 ∧
    reorder (Collaborators := demo) "etr" d1 = Returns d2 ∧
    wsp_lookup (heap (wstore (fit_multite (H := demo) 2 (staged plain asl0)).1)) 2 "asldata"
    = VAslImage d2.
Proof.
  apply (fit_multite_overwrites_asldata (H := demo) 2 (staged plain asl0)
           (fit_multite (H := demo) 2 (staged plain asl0)).1 asl0
           (new_child [top plain asl0; rois0] 0 "multite") ltac:(by_eval) ltac:(by_eval)).
  vm_compute. reflexivity.
Defined.

Lemma model_multite_four_steps_witness :
  four_steps (H := demo) 0 (world0 plain asl0) (model_multite (H := demo) 0 (world0 plain asl0)).
Proof.
  exact (model_multite_four_steps (H := demo) 0 (world0 plain asl0) (top plain asl0) ltac:(by_eval)).
Defined.

End Witnesses.

(** * Further properties *)

(** ** [_run_fabber] *)

Lemma confined_ret {A : Type} (wsp : loc) (a : A) : confined wsp (mret (M := M) a).
Proof. by intros w. Qed.

Lemma confined_raise {A : Type} (wsp : loc) (e : exn) : confined wsp (raise (A := A) e).
Proof. by intros w. Qed.

Lemma confined_bind {A B : Type} (wsp : loc) (m : M A) (f : A → M B) :
  confined wsp m → (∀ a, confined wsp (f a)) → confined wsp (m ≫= f).
Proof.
  intros Hm Hf w. rewrite bind_run. specialize (Hm w).
  destruct (m w) as [w1 [a|e]]; simpl in Hm; [|done].
  destruct Hm as [Hlen Hm]. destruct (Hf a w1) as [Hlen' Hf'].
  split; [congruence|]. intros l Hl. rewrite Hf' by done. by apply Hm.
Qed.

Lemma confined_for_each {A : Type} (wsp : loc) (xs : list A) (body : A → M unit) :
  (∀ x, confined wsp (body x)) → confined wsp (for_each xs body).
Proof.
  intros Hb. induction xs as [|x xs IH]; [apply confined_ret|].
  apply confined_bind; [apply Hb|by intros _].
Qed.

Lemma confined_alter {A : Type} (wsp : loc) (f : Workspace → Workspace) (a : A) :
  confined wsp (λ w, (on_heap (alter f wsp) w, Returns a)).
Proof.
  intros w. simpl. split; [apply length_alter|].
  intros l Hl. by apply list_lookup_alter_ne.
Qed.

Section RunFabberMore.
Context `{Collaborators}.

Lemma confined_run_fabber (wsp : loc) (options : gmap string value) (desc : string) :
  confined wsp (_run_fabber wsp options desc).
Proof.
  assert (Hg : ∀ (result : gmap string value) k, confined wsp (dict_getitem result k)).
  { intros result k. unfold dict_getitem.
    case_match; [apply confined_ret|apply confined_raise]. }
  unfold _run_fabber.
  apply confined_bind; [by intros w|intros _].
  apply confined_bind.
  { intros w. unfold call_fabber. by destruct (fabber options). }
  intros result.
  apply confined_bind; [by intros w|intros _].
  apply confined_bind.
  { apply confined_for_each. intros kv. apply confined_alter. }
  intros _. apply confined_bind; [apply Hg|intros lf].
  apply confined_bind.
  { case_match; [apply confined_ret|].
    apply confined_bind; [by intros w|intros ?; apply confined_ret]. }
  intros [|]; (apply confined_bind; [|intros ?; apply confined_ret]).
  - apply confined_bind; [apply Hg|intros ?; apply confined_alter].
  - apply confined_ret.
Qed.

(** X1.  When the engine raises, [_run_fabber] raises the same exception,
    no workspace is changed, and the log holds the description and the
    engine's lines but no completion mark. *)
Theorem run_fabber_engine_failure (wsp : loc) (options : gmap string value)
    (desc : string) (lines : list string) (e : exn) (w : world) :
  fabber options = (lines, Raises e) →
  let run := _run_fabber wsp options desc w in
  run.2 = Raises e ∧
  heap (wstore run.1) = heap (wstore w) ∧
  log (wstore run.1) = (log (wstore w) ++ ["  - " +:+ desc +:+ "     "]) ++ lines ∧
  trace run.1 = trace w ++ [EvFabber options].
Proof. intros Hf run. subst run. by rewrite (_run_fabber_raises _ _ _ _ _ _ Hf). Qed.

(** X2.  On every path, with a valid target or not, whether the engine
    returns or raises and whatever its result holds, [_run_fabber] calls
    the engine exactly once, with the options it was given, and calls
    nothing else. *)
Theorem run_fabber_calls_engine_once (wsp : loc) (options : gmap string value)
    (desc : string) (w : world) :
  trace (_run_fabber wsp options desc w).1 = trace w ++ [EvFabber options].
Proof. apply _run_fabber_trace. Qed.

(** X3.  [_run_fabber] creates no workspace and changes none but its
    target, on every path. *)
Theorem run_fabber_confined (wsp : loc) (options : gmap string value) (desc : string)
    (w : world) (l : loc) :
  l ≠ wsp →
  length (heap (wstore (_run_fabber wsp options desc w).1)) = length (heap (wstore w)) ∧
  heap (wstore (_run_fabber wsp options desc w).1) !! l = heap (wstore w) !! l.
Proof.
  intros Hl. destruct (confined_run_fabber wsp options desc w) as [Hlen Hframe].
  split; [exact Hlen|by apply Hframe].
Qed.

(** X4.  The attributes of the target that the engine's result does not
    name keep their values, and the target keeps its parents and its
    persistence directory. *)
Theorem run_fabber_keeps_other_attributes (wsp : loc) (options result : gmap string value)
    (desc : string) (lines : list string) (w : world) (n : Workspace) :
  fabber options = (lines, Returns result) →
  heap (wstore w) !! wsp = Some n →
  ∃ n', heap (wstore (_run_fabber wsp options desc w).1) !! wsp = Some n' ∧
    (∀ k, result !! k = None → attrs n' !! k = attrs n !! k) ∧
    parents n' = parents n ∧
    savedir n' = savedir n.
Proof.
  intros Hf Hn. rewrite (_run_fabber_run _ _ _ _ _ _ _ Hf Hn). simpl.
  exists (after_fabber result n). split; [by rewrite list_lookup_alter_eq, Hn|].
  unfold after_fabber.
  destruct (result !! "logfile") as [lf|] eqn:Elf.
  - destruct (negb (is_none lf) && bool_decide (is_Some (savedir n))); simpl.
    + rewrite write_all_parents, write_all_savedir. split; [|done].
      intros k Hk. rewrite lookup_insert_ne by congruence.
      rewrite write_all_attrs. by apply lookup_union_r.
    + rewrite write_all_parents, write_all_savedir. split; [|done].
      intros k Hk. rewrite write_all_attrs. by apply lookup_union_r.
  - rewrite write_all_parents, write_all_savedir. split; [|done].
    intros k Hk. rewrite write_all_attrs. by apply lookup_union_r.
Qed.

End RunFabberMore.

(** ** [_fabber_options] *)



(** X5.  [_fabber_options] only reads: whether it returns or raises, the
    workspaces, the log and the record of collaborator calls are what they
    were. *)
Theorem fabber_options_reads_only (l : loc) (w : world) :
  (_fabber_options l w).1 = w.
Proof. apply reads_fabber_options. Qed.

(** X6.  The keys of the assembled options are exactly the thirteen fixed
    keys, those of the four constants that are set in the configuration,
    and the keys of the override mapping. *)
Theorem fabber_options_key_set (l : loc) (w : world) (d : AslImage) (mask : value)
    (repeats : Z) (overrides : gmap string value) :
  valid_config (heap (wstore w)) l d mask repeats overrides →
  ∃ opts, _fabber_options l w = (w, Returns opts) ∧
    ∀ k, is_Some (opts !! k) ↔
      k ∈ fixed_keys ∨
      (k ∈ constant_names ∧ wsp_lookup (heap (wstore w)) l k ≠ VNone) ∨
      is_Some (overrides !! k).
Proof.
  intros Hcfg. eexists. split; [by apply _fabber_options_run|].
  intros k. rewrite lookup_union_is_Some. split.
  - intros [Hk|Hk]; [by right; right|].
    unfold lower_layers in Hk. apply with_constants_keys in Hk as [Hk|Hk].
    + left. by eapply general_options_keys.
    + by right; left.
  - intros [Hk|[[Hin Hv]|Hk]]; [right|right|by left].
    + unfold lower_layers. apply with_constants_keeps. by apply general_options_has.
    + rewrite lower_layers_constant by done.
      by destruct (wsp_lookup (heap (wstore w)) l k).
Qed.

(** X7.  Without a [rois] workspace, reading [wsp.rois.mask] fails:
    [_fabber_options] raises [AttributeError] and changes nothing. *)
Theorem fabber_options_no_rois (l : loc) (w : world) :
  wsp_lookup (heap (wstore w)) l "rois" = VNone →
  _fabber_options l w = (w, Raises (AttributeError "mask")).
Proof. intros Hr. unfold _fabber_options. run. rewrite Hr. by run. Qed.

(** X8.  For a dataset whose list of repeat counts is empty, [rpts[0]]
    fails: [_fabber_options] raises [IndexError] and changes nothing. *)
Theorem fabber_options_no_repeats (l r : loc) (w : world) (d : AslImage) :
  wsp_lookup (heap (wstore w)) l "asldata" = VAslImage d →
  wsp_lookup (heap (wstore w)) l "rois" = VWsp r →
  rpts d = [] →
  _fabber_options l w = (w, Raises (IndexError "list index out of range")).
Proof.
  intros Hd Hr Hrp. unfold _fabber_options.
  repeat (run; rewrite ?Hd, ?Hr, ?Hrp; cbn [fmap list_fmap py_first]).
  reflexivity.
Qed.

(** ** [fit_multite] *)

Section FitMultiteMore.
Context `{Collaborators}.

Lemma fit_multite_not_dataset (wsp : loc) (w : world) :
  (∀ d, wsp_lookup (heap (wstore w)) wsp "asldata" ≠ VAslImage d) →
  fit_multite wsp w
  = (mkWorld (mkStore (heap (wstore w)) (log (wstore w) ++ [fit_banner])) (trace w),
     Raises (AttributeError "is_var_repeats")).
Proof.
  intros Hd. unfold fit_multite. run. cbn [wstore heap].
  destruct (wsp_lookup (heap (wstore w)) wsp "asldata"); try (by run).
  by edestruct Hd.
Qed.

(** Every run leaves the attributes of the workspaces that existed before
    as they were, but for [asldata] of the workspace itself and the names
    [init] and [finalstep]. *)
Lemma fit_multite_frame_any (wsp : loc) (w : world) (l : loc) (k : string) :
  l < length (heap (wstore w)) →
  l ≠ wsp ∨ k ≠ "asldata" →
  k ≠ "init" → k ≠ "finalstep" →
  own_attr (heap (wstore (fit_multite wsp w).1)) l k = own_attr (heap (wstore w)) l k.
Proof.
  intros Hl Hne Hk1 Hk2.
  destruct (wsp_lookup (heap (wstore w)) wsp "asldata") as [| | | | | | |d| |] eqn:Hd;
    try (rewrite fit_multite_not_dataset; [done|by rewrite Hd]).
  destruct (is_var_repeats d) eqn:Hv.
  { by rewrite (fit_multite_var _ _ _ Hd Hv). }
  destruct (diff d) as [d1|e] eqn:Hdiff.
  2:{ by rewrite (fit_multite_diff_raises _ _ _ _ Hd Hv Hdiff). }
  destruct (reorder "etr" d1) as [d2|e] eqn:Hre.
  2:{ by rewrite (fit_multite_reorder_raises _ _ _ _ _ Hd Hv Hdiff Hre). }
  rewrite (fit_multite_frame _ _ _ _ _ _ _ Hd Hv Hdiff Hre Hl Hk1 Hk2).
  apply own_attr_set_ne. destruct Hne; auto.
Qed.

(** The collaborator calls of any run. *)
Lemma fit_multite_events (wsp : loc) (w : world) :
  ∃ evs, trace (fit_multite wsp w).1 = trace w ++ evs ∧
    (evs = [] ∨
     (∃ d, evs = [EvDiff d]) ∨
     (∃ d d1, evs = [EvDiff d; EvReorder "etr" d1]) ∨
     (∃ d d1 opts, evs = [EvDiff d; EvReorder "etr" d1; EvPrint opts; EvFabber opts])).
Proof.
  destruct (wsp_lookup (heap (wstore w)) wsp "asldata") as [| | | | | | |d| |] eqn:Hd;
    try (rewrite fit_multite_not_dataset; [|by rewrite Hd];
         exists []; simpl; rewrite app_nil_r; by split; [|left]).
  destruct (is_var_repeats d) eqn:Hv.
  { rewrite (fit_multite_var _ _ _ Hd Hv). exists []. simpl. rewrite app_nil_r.
    by split; [|left]. }
  destruct (diff d) as [d1|e] eqn:Hdiff.
  2:{ rewrite (fit_multite_diff_raises _ _ _ _ Hd Hv Hdiff). exists [EvDiff d].
      split; [done|]. right. left. by exists d. }
  destruct (reorder "etr" d1) as [d2|e] eqn:Hre.
  2:{ rewrite (fit_multite_reorder_raises _ _ _ _ _ Hd Hv Hdiff Hre).
      exists [EvDiff d; EvReorder "etr" d1]. simpl. rewrite <- app_assoc.
      split; [done|]. right. right. left. by exists d, d1. }
  rewrite (fit_multite_trace _ _ _ _ _ Hd Hv Hdiff Hre).
  eexists. split; [done|]. unfold engine_calls.
  destruct (py_truthy _); [right; right; left; by exists d, d1|].
  destruct (wsp_lookup (heap (wstore w)) wsp "multite");
    try (right; right; left; by exists d, d1).
  destruct (_fabber_options _ _).2 as [opts|e].
  - right. right. right. by exists d, d1, opts.
  - right. right. left. by exists d, d1.
Qed.

(** X9.  On a workspace that sees no dataset, [fit_multite] raises
    [AttributeError] at the check: it has written its first log line,
    changed no workspace and called no collaborator. *)
Theorem fit_multite_no_dataset (wsp : loc) (w : world) :
  wsp_lookup (heap (wstore w)) wsp "asldata" = VNone →
  fit_multite wsp w
  = (mkWorld (mkStore (heap (wstore w)) (log (wstore w) ++ [fit_banner])) (trace w),
     Raises (AttributeError "is_var_repeats")).
Proof. intros Hd. apply fit_multite_not_dataset. intros d. by rewrite Hd. Qed.

(** X10.  When the dataset's [diff], or [reorder] on the difference,
    raises, [fit_multite] raises the same exception and no workspace is
    changed: [asldata] is still the dataset it was, since the assignment is
    not reached. *)
Theorem fit_multite_dataset_error (wsp : loc) (w : world) (d : AslImage) (e : exn) :
  wsp_lookup (heap (wstore w)) wsp "asldata" = VAslImage d →
  is_var_repeats d = false →
  diff d = Raises e ∨ (∃ d1, diff d = Returns d1 ∧ reorder "etr" d1 = Raises e) →
  (fit_multite wsp w).2 = Raises e ∧
  heap (wstore (fit_multite wsp w).1) = heap (wstore w) ∧
  wsp_lookup (heap (wstore (fit_multite wsp w).1)) wsp "asldata" = VAslImage d.
Proof.
  intros Hd Hv [Hdiff|(d1 & Hdiff & Hre)].
  - by rewrite (fit_multite_diff_raises _ _ _ _ Hd Hv Hdiff).
  - by rewrite (fit_multite_reorder_raises _ _ _ _ _ Hd Hv Hdiff Hre).
Qed.

(** X11.  When the engine raises, [fit_multite] raises the same exception
    after part of its work: [asldata] is already the transformed dataset,
    the [finalstep] workspace exists below the [multite] workspace and is
    empty, and the log ends with the engine's lines, without either
    completion mark. *)
Theorem fit_multite_engine_failure (wsp q : loc) (w : world) (d d1 d2 : AslImage)
    (n nq : Workspace) (opts : gmap string value) (lines : list string) (e : exn) :
  wsp_lookup (heap (wstore w)) wsp "asldata" = VAslImage d →
  is_var_repeats d = false →
  diff d = Returns d1 →
  reorder "etr" d1 = Returns d2 →
  heap (wstore w) !! wsp = Some n →
  py_truthy (wsp_lookup (heap (wstore w)) wsp "multite_init") = false →
  wsp_lookup (heap (wstore w)) wsp "multite" = VWsp q →
  heap (wstore w) !! q = Some nq →
  _fabber_options q (after_assignment wsp d d1 d2 w)
    = (after_assignment wsp d d1 d2 w, Returns opts) →
  fabber opts = (lines, Raises e) →
  let run := fit_multite wsp w in
  let fs := length (heap (wstore w)) in
  run.2 = Raises e ∧
  wsp_lookup (heap (wstore run.1)) wsp "asldata" = VAslImage d2 ∧
  wsp_lookup (heap (wstore run.1)) q "finalstep" = VWsp fs ∧
  (∃ child, heap (wstore run.1) !! fs = Some child ∧ attrs child = ∅) ∧
  log (wstore run.1)
  = ((log (wstore w) ++ [fit_banner]) ++ ["  - " +:+ fabber_desc +:+ "     "]) ++ lines.
Proof.
  intros Hd Hv Hdiff Hre Hn Hflag Hmt Hq Hopts Hf run fs. subst run fs.
  assert (Hl : wsp < length (heap (wstore w))) by (by eapply lookup_lt_Some).
  assert (Hlq : q < length (heap (wstore w))) by (by eapply lookup_lt_Some).
  rewrite (fit_multite_options _ _ _ _ _ _ Hd Hv Hdiff Hre Hflag Hmt), Hopts.
  rewrite bind_run, (_run_fabber_raises _ _ _ _ _ _ Hf). simpl.
  rewrite !length_alter.
  split; [done|]. split; [|split; [|split; [|done]]].
  - apply wsp_lookup_own. rewrite own_attr_set_ne by (right; done).
    rewrite own_attr_app by (by rewrite length_alter).
    by apply own_attr_set_eq.
  - apply wsp_lookup_set_eq. rewrite length_app, length_alter. lia.
  - eexists. split.
    + rewrite list_lookup_alter_ne by lia.
      rewrite lookup_app_r by (rewrite length_alter; lia).
      by rewrite length_alter, Nat.sub_diag.
    + reflexivity.
Qed.

(** X12.  When the engine returns a result that has a [logfile] entry,
    [fit_multite] returns, and every entry of the result is an attribute of
    the new [finalstep] workspace of the [multite] workspace; the calls
    made are [diff], [reorder], [print] and the engine, in this order, and
    the log ends with the two completion marks. *)
Theorem fit_multite_stores_results (wsp q : loc) (w : world) (d d1 d2 : AslImage)
    (nq : Workspace) (opts result : gmap string value) (lines : list string) :
  wsp_lookup (heap (wstore w)) wsp "asldata" = VAslImage d →
  is_var_repeats d = false →
  diff d = Returns d1 →
  reorder "etr" d1 = Returns d2 →
  py_truthy (wsp_lookup (heap (wstore w)) wsp "multite_init") = false →
  wsp_lookup (heap (wstore w)) wsp "multite" = VWsp q →
  heap (wstore w) !! q = Some nq →
  _fabber_options q (after_assignment wsp d d1 d2 w)
    = (after_assignment wsp d d1 d2 w, Returns opts) →
  fabber opts = (lines, Returns result) →
  is_Some (result !! "logfile") →
  let run := fit_multite wsp w in
  let fs := length (heap (wstore w)) in
  run.2 = Returns tt ∧
  wsp_lookup (heap (wstore run.1)) q "finalstep" = VWsp fs ∧
  (∀ k v, result !! k = Some v → wsp_lookup (heap (wstore run.1)) fs k = v) ∧
  trace run.1 = trace w ++ [EvDiff d; EvReorder "etr" d1; EvPrint opts; EvFabber opts] ∧
  log (wstore run.1)
  = fabber_log fabber_desc lines (log (wstore w) ++ [fit_banner]) ++ [fit_done].
Proof.
  intros Hd Hv Hdiff Hre Hflag Hmt Hq Hopts Hf [lf Hlf] run fs. subst run fs.
  assert (Hlq : q < length (heap (wstore w))) by (by eapply lookup_lt_Some).
  rewrite (fit_multite_options _ _ _ _ _ _ Hd Hv Hdiff Hre Hflag Hmt), Hopts.
  set (wb := before_fabber q opts (after_assignment wsp d d1 d2 w)).
  assert (Hfs : heap (wstore wb) !! length (heap (wstore w))
                = Some (new_child (heap (wstore (after_assignment wsp d d1 d2 w))) q
                          "finalstep")).
  { unfold wb. simpl. rewrite list_lookup_alter_ne by lia.
    rewrite lookup_app_r by (rewrite length_alter; lia).
    by rewrite length_alter, Nat.sub_diag. }
  rewrite bind_run, (_run_fabber_run _ _ _ _ _ _ _ Hf Hfs), Hlf. simpl.
  rewrite !length_alter.
  split; [done|]. split; [|split; [|split; [|done]]].
  - apply wsp_lookup_own. rewrite own_attr_alter_ne by lia.
    apply own_attr_set_eq. rewrite length_app, length_alter. lia.
  - intros k v Hk. apply wsp_lookup_own. unfold own_attr.
    rewrite list_lookup_alter_eq. fold wb in Hfs. simpl in Hfs.
    rewrite length_alter in Hfs. rewrite Hfs. simpl. by apply after_fabber_attrs.
  - by rewrite <- !app_assoc.
Qed.

(** X13.  Every run of [fit_multite], however it ends, leaves the
    attributes of the workspaces that existed before as they were, except
    [asldata] of the workspace it runs on and the names [init] and
    [finalstep]. *)
Theorem fit_multite_changes_little (wsp : loc) (w : world) (l : loc) (k : string) :
  l < length (heap (wstore w)) →
  l ≠ wsp ∨ k ≠ "asldata" →
  k ≠ "init" → k ≠ "finalstep" →
  own_attr (heap (wstore (fit_multite wsp w).1)) l k = own_attr (heap (wstore w)) l k.
Proof. apply fit_multite_frame_any. Qed.

(** X14.  Every run of [fit_multite] calls at most [diff], then [reorder]
    with ["etr"], then [print] and the engine with the same options, each
    once and in this order; it never calls a pipeline routine and never
    calls the engine twice. *)
Theorem fit_multite_call_sequence (wsp : loc) (w : world) :
  ∃ evs, trace (fit_multite wsp w).1 = trace w ++ evs ∧
    (evs = [] ∨
     (∃ d, evs = [EvDiff d]) ∨
     (∃ d d1, evs = [EvDiff d; EvReorder "etr" d1]) ∨
     (∃ d d1 opts, evs = [EvDiff d; EvReorder "etr" d1; EvPrint opts; EvFabber opts])).
Proof. apply fit_multite_events. Qed.

End FitMultiteMore.

(** ** [model_multite] *)

Lemma own_attr_app_empty (h : list Workspace) (n : Workspace) (c : loc) (k : string) :
  attrs n = ∅ → own_attr (h ++ [n]) c k = own_attr h c k.
Proof.
  intros Hn. unfold own_attr.
  destruct (decide (c < length h)) as [Hc|Hc]; [by rewrite lookup_app_l|].
  rewrite lookup_app_r by lia. rewrite (lookup_ge_None_2 h c) by lia.
  destruct (c - length h) as [|i]; simpl; [by rewrite Hn|done].
Qed.

Lemma lookup_chain_app_empty (h : list Workspace) (n : Workspace) (chain : list loc)
    (k : string) :
  attrs n = ∅ → lookup_chain (h ++ [n]) chain k = lookup_chain h chain k.
Proof.
  intros Hn. induction chain as [|c chain IH]; simpl; [done|].
  by rewrite own_attr_app_empty, IH.
Qed.

(** A workspace made by [sub] sees every attribute of its parent, except
    under its own name. *)
Lemma wsp_lookup_new_child (h : list Workspace) (l : loc) (name k : string) :
  l < length h → k ≠ name →
  wsp_lookup (alter (set_attr name (VWsp (length h))) l (h ++ [new_child h l name]))
    (length h) k
  = wsp_lookup h l k.
Proof.
  intros Hl Hk. unfold wsp_lookup.
  assert (Hc : alter (set_attr name (VWsp (length h))) l (h ++ [new_child h l name])
               !! length h = Some (new_child h l name)).
  { rewrite list_lookup_alter_ne by lia. rewrite lookup_app_r by lia.
    by rewrite Nat.sub_diag. }
  unfold parents_of at 1. rewrite Hc. cbn [parents new_child lookup_chain].
  unfold own_attr at 1. rewrite Hc. simpl. rewrite lookup_empty.
  rewrite own_attr_set_ne by (right; congruence).
  rewrite own_attr_app_empty by done.
  rewrite lookup_chain_set_ne by congruence.
  by rewrite lookup_chain_app_empty.
Qed.

Section ModelMultiteMore.
Context `{Collaborators}.

(** The statements of lines 113-114. *)
Lemma model_multite_fit_step (wsp : loc) (w : world) (n : Workspace) :
  heap (wstore w) !! wsp = Some n →
  ∀ w2 e,
    fit_multite (length (heap (wstore w))) (wsp_sub wsp "multite" w).1 = (w2, Raises e) →
    model_multite wsp w = (w2, Raises e).
Proof.
  intros Hn w2 e Hfit.
  assert (Hl : wsp < length (heap (wstore w))) by (by eapply lookup_lt_Some).
  unfold model_multite. run. unfold on_heap. cbn [wstore heap log trace].
  rewrite wsp_lookup_set_eq by (rewrite length_app; lia). run.
  match goal with
  | |- context [fit_multite _ ?w1] => change w1 with (wsp_sub wsp "multite" w).1
  end.
  by rewrite Hfit.
Qed.

(** X15.  End to end, on a dataset with variable repeats [model_multite]
    raises the [ValueError] of the check: the [multite] workspace has been
    created, one log line written, and nothing else has happened (no
    collaborator called, no [output] workspace). *)
Theorem model_multite_var_repeats (wsp : loc) (w : world) (n : Workspace) (d : AslImage) :
  heap (wstore w) !! wsp = Some n →
  wsp_lookup (heap (wstore w)) wsp "asldata" = VAslImage d →
  is_var_repeats d = true →
  model_multite wsp w
  = (mkWorld
       (mkStore (heap (wstore (wsp_sub wsp "multite" w).1)) (log (wstore w) ++ [fit_banner]))
       (trace w),
     Raises var_repeats_error).
Proof.
  intros Hn Hd Hv.
  assert (Hl : wsp < length (heap (wstore w))) by (by eapply lookup_lt_Some).
  apply (model_multite_fit_step wsp w n Hn).
  rewrite (fit_multite_var (length (heap (wstore w))) (wsp_sub wsp "multite" w).1 d);
    [done| |done].
  simpl. by rewrite wsp_lookup_new_child.
Qed.

(** X16.  When the fit raises, [model_multite] raises the same exception
    and ends in the world the fit left: no pipeline routine is called and
    the workspace gets no [output] attribute. *)
Theorem model_multite_fit_failure (wsp : loc) (w w2 : world) (n : Workspace) (e : exn) :
  heap (wstore w) !! wsp = Some n →
  fit_multite (length (heap (wstore w))) (wsp_sub wsp "multite" w).1 = (w2, Raises e) →
  model_multite wsp w = (w2, Raises e) ∧
  own_attr (heap (wstore w2)) wsp "output" = own_attr (heap (wstore w)) wsp "output" ∧
  ∀ ev, ev ∈ drop (length (trace w)) (trace w2) →
    match ev with
    | EvOutputNative _ _ | EvRedoReg _ _ | EvOutputTrans _ => False
    | _ => True
    end.
Proof.
  intros Hn Hfit.
  assert (Hl : wsp < length (heap (wstore w))) by (by eapply lookup_lt_Some).
  split; [by apply (model_multite_fit_step wsp w n Hn)|]. split.
  - pose proof (fit_multite_frame_any (length (heap (wstore w)))
                  (wsp_sub wsp "multite" w).1 wsp "output") as Hf.
    rewrite Hfit in Hf. simpl in Hf. rewrite Hf; [| |right|..]; try done.
    + rewrite own_attr_set_ne by (right; done). by apply own_attr_app.
    + rewrite length_alter, length_app. lia.
  - destruct (fit_multite_events (length (heap (wstore w))) (wsp_sub wsp "multite" w).1)
      as (evs & Htr & Hshape).
    rewrite Hfit in Htr. simpl in Htr. rewrite Htr, drop_app_length.
    intros ev Hev.
    destruct Hshape as [->|[(d & ->)|[(d & d1 & ->)|(d & d1 & opts & ->)]]];
      repeat (apply elem_of_cons in Hev as [->|Hev]; [done|]);
      by apply elem_of_nil in Hev.
Qed.

(** X17.  End to end, with the initialisation flag set [model_multite]
    raises [NameError]: the dataset has been differenced and reordered, and
    neither the engine nor a pipeline routine is called. *)
Theorem model_multite_init_flag (wsp : loc) (w : world) (n : Workspace)
    (d d1 d2 : AslImage) :
  heap (wstore w) !! wsp = Some n →
  wsp_lookup (heap (wstore w)) wsp "asldata" = VAslImage d →
  is_var_repeats d = false →
  diff d = Returns d1 →
  reorder "etr" d1 = Returns d2 →
  py_truthy (wsp_lookup (heap (wstore w)) wsp "multite_init") = true →
  (model_multite wsp w).2 = Raises (NameError "fit_init") ∧
  trace (model_multite wsp w).1 = trace w ++ [EvDiff d; EvReorder "etr" d1].
Proof.
  intros Hn Hd Hv Hdiff Hre Hflag.
  assert (Hl : wsp < length (heap (wstore w))) by (by eapply lookup_lt_Some).
  set (w1 := (wsp_sub wsp "multite" w).1).
  assert (Hd1 : wsp_lookup (heap (wstore w1)) (length (heap (wstore w))) "asldata"
                = VAslImage d).
  { unfold w1. simpl. by rewrite wsp_lookup_new_child. }
  assert (Hflag1 : py_truthy (wsp_lookup (heap (wstore w1)) (length (heap (wstore w)))
                                "multite_init") = true).
  { unfold w1. simpl. by rewrite wsp_lookup_new_child. }
  rewrite (model_multite_fit_step wsp w n Hn _ _
             (fit_multite_init _ _ _ _ _ Hd1 Hv Hdiff Hre Hflag1)).
  simpl. split; [done|]. by rewrite <- app_assoc.
Qed.

(** X18.  Through the fit step of [model_multite], however it ends, the
    workspace's own [asldata] is what it was: the transformed dataset is
    stored in the [multite] workspace, not in the caller's. *)
Theorem model_multite_keeps_caller_dataset (wsp : loc) (w : world) (n : Workspace) :
  heap (wstore w) !! wsp = Some n →
  own_attr
    (heap (wstore (fit_multite (length (heap (wstore w))) (wsp_sub wsp "multite" w).1).1))
    wsp "asldata"
  = own_attr (heap (wstore w)) wsp "asldata".
Proof.
  intros Hn.
  assert (Hl : wsp < length (heap (wstore w))) by (by eapply lookup_lt_Some).
  rewrite fit_multite_frame_any; [| |left|..]; try done.
  - simpl. rewrite own_attr_set_ne by (right; done). by apply own_attr_app.
  - simpl. rewrite length_alter, length_app. lia.
  - lia.
Qed.

End ModelMultiteMore.

(** ** The further properties on the concrete pipeline *)

Section MoreWitnesses.
Import Demo Cases.

Ltac by_eval := vm_compute; reflexivity.

Lemma run_fabber_engine_failure_witness :
  (_run_fabber (H := demo_failing) 0 plain "fit" (world0 plain asl0)).2
  = Raises (CollaboratorError "fabber failed") ∧
  heap (wstore (_run_fabber (H := demo_failing) 0 plain "fit" (world0 plain asl0)).1)
  = [top plain asl0; rois0] ∧
  log (wstore (_run_fabber (H := demo_failing) 0 plain "fit" (world0 plain asl0)).1)
  = ["  - fit     "; "fabber: error"] ∧
  trace (_run_fabber (H := demo_failing) 0 plain "fit" (world0 plain asl0)).1
  = [EvFabber plain].
Proof.
  exact (run_fabber_engine_failure (H := demo_failing) 0 plain "fit" ["fabber: error"]
           (CollaboratorError "fabber failed") (world0 plain asl0) ltac:(by_eval)).
Defined.

Lemma run_fabber_confined_witness :
  length (heap (wstore (_run_fabber (H := demo) 0 plain "fit" (world0 plain asl0)).1)) = 2 ∧
  heap (wstore (_run_fabber (H := demo) 0 plain "fit" (world0 plain asl0)).1) !! 1
  = Some rois0.
Proof.
  exact (run_fabber_confined (H := demo) 0 plain "fit" (world0 plain asl0) 1
           ltac:(lia)).
Defined.

Lemma run_fabber_keeps_other_attributes_witness :
  ∃ n', heap (wstore (_run_fabber (H := demo) 0 plain "fit" (world0 plain asl0)).1) !! 0
        = Some n' ∧
    attrs n' !! "rois" = Some (VWsp 1) ∧
    savedir n' = Some "/out".
Proof.
  destruct (run_fabber_keeps_other_attributes (H := demo) 0 plain demo_result "fit"
              ["fabber: 100%"] (world0 plain asl0) (top plain asl0)
              ltac:(by_eval) ltac:(by_eval))
    as (n' & Hn' & Hkeep & _ & Hdir).
  exists n'. split; [exact Hn'|]. split; [|exact Hdir].
  rewrite (Hkeep "rois"); by_eval.
Defined.

Lemma fabber_options_key_set_witness :
  ∃ opts, _fabber_options 0 (world0 with_t1_and_more asl0)
          = (world0 with_t1_and_more asl0, Returns opts) ∧
    is_Some (opts !! "t1") ∧ ¬ is_Some (opts !! "t2") ∧ ¬ is_Some (opts !! "multite_options").
Proof.
  destruct (fabber_options_key_set 0 (world0 with_t1_and_more asl0) asl0 (VImage "mask") 2
              more_iterations
              (world0_valid with_t1_and_more more_iterations ltac:(by_eval) ltac:(by_eval)
                 ltac:(by_eval)))
    as (opts & Hrun & Hkeys).
  exists opts. split; [exact Hrun|]. split; [|split].
  - apply Hkeys. right. left. split; [compute_done|]. vm_compute. discriminate.
  - intros Hk. apply Hkeys in Hk as [Hk|[[_ Hk]|Hk]].
    + revert Hk. compute_done.
    + apply Hk. by_eval.
    + revert Hk. vm_compute. by intros [? [=]].
  - intros Hk. apply Hkeys in Hk as [Hk|[[Hk _]|Hk]].
    + revert Hk. compute_done.
    + revert Hk. compute_done.
    + revert Hk. vm_compute. by intros [? [=]].
Defined.

Lemma fabber_options_no_rois_witness :
  _fabber_options 0 (bare asl0) = (bare asl0, Raises (AttributeError "mask")).
Proof. exact (fabber_options_no_rois 0 (bare asl0) ltac:(by_eval)). Defined.

Lemma fabber_options_no_repeats_witness :
  _fabber_options 0 (world0 plain asl_no_rpts)
  = (world0 plain asl_no_rpts, Raises (IndexError "list index out of range")).
Proof.
  exact (fabber_options_no_repeats 0 1 (world0 plain asl_no_rpts) asl_no_rpts
           ltac:(by_eval) ltac:(by_eval) ltac:(by_eval)).
Defined.

Lemma fit_multite_no_dataset_witness :
  fit_multite (H := demo) 0 empty_world
  = (mkWorld (mkStore [mkWorkspace ∅ [] None []] [fit_banner]) [],
     Raises (AttributeError "is_var_repeats")).
Proof. exact (fit_multite_no_dataset (H := demo) 0 empty_world ltac:(by_eval)). Defined.

Lemma fit_multite_dataset_error_witness :
  (fit_multite (H := demo_no_diff) 0 (world0 plain asl0)).2
  = Raises (CollaboratorError "cannot difference") ∧
  heap (wstore (fit_multite (H := demo_no_diff) 0 (world0 plain asl0)).1)
  = [top plain asl0; rois0] ∧
  wsp_lookup (heap (wstore (fit_multite (H := demo_no_diff) 0 (world0 plain asl0)).1)) 0
    "asldata" = VAslImage asl0.
Proof.
  apply (fit_multite_dataset_error (H := demo_no_diff) 0 (world0 plain asl0) asl0
           (CollaboratorError "cannot difference"));
    [by_eval|by_eval|left; by_eval].
Defined.

Lemma fit_multite_engine_failure_witness :
  (fit_multite (H := demo_failing) 2 (staged plain asl0)).2
  = Raises (CollaboratorError "fabber failed") ∧
  wsp_lookup (heap (wstore (fit_multite (H := demo_failing) 2 (staged plain asl0)).1)) 2
    "asldata" = VAslImage asl0_etr ∧
  wsp_lookup (heap (wstore (fit_multite (H := demo_failing) 2 (staged plain asl0)).1)) 2
    "finalstep" = VWsp 3 ∧
  (∃ child,
     heap (wstore (fit_multite (H := demo_failing) 2 (staged plain asl0)).1) !! 3
     = Some child ∧ attrs child = ∅) ∧
  log (wstore (fit_multite (H := demo_failing) 2 (staged plain asl0)).1)
  = [fit_banner; "  - Running Fabber using multi-TE model     "; "fabber: error"].
Proof.
  exact (fit_multite_engine_failure (H := demo_failing) 2 2 (staged plain asl0)
           asl0 asl0_diff asl0_etr
           (new_child [top plain asl0; rois0] 0 "multite")
           (new_child [top plain asl0; rois0] 0 "multite")
           _ ["fabber: error"] (CollaboratorError "fabber failed")
           ltac:(by_eval) ltac:(by_eval) ltac:(by_eval) ltac:(by_eval) ltac:(by_eval)
           ltac:(by_eval) ltac:(by_eval) ltac:(by_eval)
           (_fabber_options_run _ _ _ _ _ _ staged_valid) ltac:(by_eval)).
Defined.

Lemma fit_multite_stores_results_witness :
  (fit_multite (H := demo) 2 (staged plain asl0)).2 = Returns tt ∧
  wsp_lookup (heap (wstore (fit_multite (H := demo) 2 (staged plain asl0)).1)) 2 "finalstep"
  = VWsp 3 ∧
  wsp_lookup (heap (wstore (fit_multite (H := demo) 2 (staged plain asl0)).1)) 3 "mean_ftiss"
  = VImage "mean_ftiss".
Proof.
  destruct (fit_multite_stores_results (H := demo) 2 2 (staged plain asl0)
              asl0 asl0_diff asl0_etr
              (new_child [top plain asl0; rois0] 0 "multite")
              _ demo_result ["fabber: 100%"]
              ltac:(by_eval) ltac:(by_eval) ltac:(by_eval) ltac:(by_eval) ltac:(by_eval)
              ltac:(by_eval) ltac:(by_eval)
              (_fabber_options_run _ _ _ _ _ _ staged_valid) ltac:(by_eval)
              (mk_is_Some _ (VStr "/tmp/log.txt") ltac:(by_eval)))
    as (Hret & Hfs & Hres & _ & _).
  split; [exact Hret|]. split; [exact Hfs|]. apply Hres. by_eval.
Defined.

Lemma fit_multite_changes_little_witness :
  own_attr (heap (wstore (fit_multite (H := demo) 2 (staged plain asl0)).1)) 0 "asldata"
  = Some (VAslImage asl0).
Proof.
  apply (fit_multite_changes_little (H := demo) 2 (staged plain asl0) 0 "asldata");
    [vm_compute; lia|left; lia|discriminate|discriminate].
Defined.

Lemma model_multite_var_repeats_witness :
  model_multite (H := demo) 0 (world0 plain asl_var)
  = (mkWorld (mkStore (heap (wstore (staged plain asl_var))) [fit_banner]) [],
     Raises var_repeats_error).
Proof.
  exact (model_multite_var_repeats (H := demo) 0 (world0 plain asl_var) (top plain asl_var)
           asl_var ltac:(by_eval) ltac:(by_eval) ltac:(by_eval)).
Defined.

Lemma model_multite_fit_failure_witness :
  (model_multite (H := demo_failing) 0 (world0 plain asl0)).2
  = Raises (CollaboratorError "fabber failed") ∧
  own_attr (heap (wstore (model_multite (H := demo_failing) 0 (world0 plain asl0)).1)) 0
    "output" = None.
Proof.
  destruct (model_multite_fit_failure (H := demo_failing) 0 (world0 plain asl0)
              (fit_multite (H := demo_failing) 2 (staged plain asl0)).1
              (top plain asl0) (CollaboratorError "fabber failed")
              ltac:(by_eval) ltac:(by_eval))
    as (Hrun & Hout & _).
  rewrite Hrun. cbn [fst snd]. split; [done|]. rewrite Hout. by_eval.
Defined.

Lemma model_multite_init_flag_witness :
  (model_multite (H := demo) 0 (world0 with_init asl0)).2 = Raises (NameError "fit_init") ∧
  trace (model_multite (H := demo) 0 (world0 with_init asl0)).1
  = [EvDiff asl0; EvReorder "etr" asl0_diff].
Proof.
  exact (model_multite_init_flag (H := demo) 0 (world0 with_init asl0)
           (top with_init asl0) asl0 asl0_diff asl0_etr
           ltac:(by_eval) ltac:(by_eval) ltac:(by_eval) ltac:(by_eval) ltac:(by_eval)
           ltac:(by_eval)).
Defined.

Lemma model_multite_keeps_caller_dataset_witness :
  own_attr (heap (wstore (fit_multite (H := demo) 2 (staged plain asl0)).1)) 0 "asldata"
  = Some (VAslImage asl0).
Proof.
  exact (model_multite_keeps_caller_dataset (H := demo) 0 (world0 plain asl0)
           (top plain asl0) ltac:(by_eval)).
Defined.

End MoreWitnesses.
